(** * cli/operations.py: the onboard, download and upload flows

    A shallow embedding of [src/cli/operations.py].  Pure helpers
    ([supported_file_type], [strip_path_prefix], [_download_bounds]) are
    Rocq functions.  The three command flows talk to the outside world
    (blob storage, the labeling service over HTTP, the local file system,
    standard output); they are written in a small state-and-exception
    monad whose state is the log of every call made so far, and whose
    answers come from an environment that may depend on that log. *)

From Stdlib Require Import ZArith Ascii String DecimalString List Lia Bool.
From stdpp Require Import base option list gmap strings.

Local Open Scope Z_scope.
Set Warnings "-register-all".

(** ** Python strings *)

Module Str.

Definition len (s : string) : Z := Z.of_nat (String.length s).

(** [s.startswith(p)] *)
Definition startswith (p s : string) : bool := String.prefix p s.

(** [s.endswith(p)] for a one-character [p] *)
Fixpoint endswith_char (c : ascii) (s : string) : bool :=
  match s with
  | EmptyString => false
  | String a EmptyString => Ascii.eqb a c
  | String _ s' => endswith_char c s'
  end.

(** [c.lower()] on one character: only 'A'..'Z' change. *)
Definition lower_char (c : ascii) : ascii :=
  let n := nat_of_ascii c in
  if ((65 <=? n)%nat && (n <=? 90)%nat)%bool then ascii_of_nat (n + 32) else c.

(** [s.lower()] *)
Fixpoint lower (s : string) : string :=
  match s with
  | EmptyString => EmptyString
  | String c s' => String (lower_char c) (lower s')
  end.

(** [s.rfind(c)] for a one-character [c]: the highest index, or -1. *)
Fixpoint rfind (c : ascii) (s : string) : Z :=
  match s with
  | EmptyString => -1
  | String a s' =>
      let i := rfind c s' in
      if 0 <=? i then i + 1
      else if Ascii.eqb a c then 0 else -1
  end.

(** [s[n:]] *)
Fixpoint drop (n : nat) (s : string) : string :=
  match n, s with
  | O, _ => s
  | S _, EmptyString => EmptyString
  | S k, String _ s' => drop k s'
  end.

(** [s.split(sep)] for a one-character [sep] *)
Fixpoint split (sep : ascii) (s : string) : list string :=
  match s with
  | EmptyString => [EmptyString]
  | String c s' =>
      if Ascii.eqb c sep then EmptyString :: split sep s'
      else match split sep s' with
           | [] => [String c EmptyString]
           | w :: ws => String c w :: ws
           end
  end.

(** [sep.join(l)] *)
Fixpoint join (sep : string) (l : list string) : string :=
  match l with
  | [] => EmptyString
  | [w] => w
  | w :: ws => w +:+ sep +:+ join sep ws
  end.

(** [s.lstrip(c)] for a one-character [c] *)
Fixpoint lstrip (c : ascii) (s : string) : string :=
  match s with
  | String a s' => if Ascii.eqb a c then lstrip c s' else s
  | EmptyString => EmptyString
  end.

(** The scan behind [s.replace(old, new)] for a non-empty [old]: left to
    right, an occurrence of [old] at the current position is replaced by
    [new] and the scan resumes after it ([skip] counts the characters of
    the occurrence still to be passed over). *)
Fixpoint replace_go (old new : string) (skip : nat) (s : string) : string :=
  match s with
  | EmptyString => EmptyString
  | String c s' =>
      match skip with
      | S k => replace_go old new k s'
      | O =>
          if String.prefix old s
          then new +:+ replace_go old new (String.length old - 1) s'
          else String c (replace_go old new 0 s')
      end
  end.

(** With an empty [old], Python puts [new] before every character and at
    the end. *)
Fixpoint intersperse (new : string) (s : string) : string :=
  match s with
  | EmptyString => new
  | String c s' => new +:+ String c (intersperse new s')
  end.

(** [s.replace(old, new)] *)
Definition replace (old new s : string) : string :=
  match old with
  | EmptyString => intersperse new s
  | _ => replace_go old new 0 s
  end.

(** [str(n)] for a non-negative integer *)
Definition of_nat (n : nat) : string := NilEmpty.string_of_uint (Nat.to_uint n).

End Str.

(** ** pathlib.PurePosixPath

    A path is its root ("", "/" or "//") and its components; parsing a
    string drops empty and "." components, as pathlib does. *)

Record Path := mkPath { p_root : string; p_parts : list string }.

Module PathLib.

(** [_PosixFlavour.splitroot] *)
Definition splitroot (part : string) : string * string :=
  match part with
  | String "/" _ =>
      let stripped := Str.lstrip "/" part in
      if (String.length part - String.length stripped =? 2)%nat
      then ("//", stripped) else ("/", stripped)
  | _ => ("", part)
  end.

Definition is_component (x : string) : bool :=
  negb (String.eqb x "" || String.eqb x ".").

(** [pathlib.Path(s)] *)
Definition of_str (s : string) : Path :=
  let '(root, rel) := splitroot s in
  mkPath root (List.filter is_component (Str.split "/" rel)).

(** [str(p)] *)
Definition str (p : Path) : string :=
  let s := p_root p +:+ Str.join "/" (p_parts p) in
  if String.eqb s "" then "." else s.

(** [p / q] for two paths *)
Definition join_path (p q : Path) : Path :=
  if String.eqb (p_root q) "" then mkPath (p_root p) (p_parts p ++ p_parts q)
  else q.

(** [p / s] for a string [s] *)
Definition join (p : Path) (s : string) : Path := join_path p (of_str s).

(** [p.name] *)
Definition name (p : Path) : string := List.last (p_parts p) "".

(** [p.suffix] *)
Definition suffix (p : Path) : string :=
  let name := name p in
  let i := Str.rfind "." name in
  if ((0 <? i) && (i <? Str.len name - 1))%bool
  then Str.drop (Z.to_nat i) name
  else "".

(** [p.parent] *)
Definition parent (p : Path) : Path :=
  mkPath (p_root p) (List.removelast (p_parts p)).

End PathLib.

(** [os.path.join(a, b)] *)
Definition os_path_join (a b : string) : string :=
  if Str.startswith "/" b then b
  else if (String.eqb a "" || Str.endswith_char "/" a)%bool then a +:+ b
  else a +:+ "/" +:+ b.

(** ** The pure helpers of operations.py *)

Definition DEFAULT_NUM_IMAGES : Z := 40.
Definition LOWER_LIMIT : Z := 0.
Definition UPPER_LIMIT : Z := 100.

Definition supported_suffixes : list string := [".png"; ".jpg"; ".jpeg"; ".gif"].

Definition supported_file_type (file_name : string) : bool :=
  if Str.startswith "." file_name then false
  else
    let file_suffix := Str.lower (PathLib.suffix (PathLib.of_str file_name)) in
    if bool_decide (file_suffix ∈ supported_suffixes) then true else false.

Definition strip_path_prefix (folder_name file_path : string) : Path :=
  let stripped_path := Str.replace folder_name "" file_path in
  if Str.startswith "/" stripped_path
  then PathLib.of_str (Str.drop 1 stripped_path)
  else PathLib.of_str stripped_path.

(** ** Python values crossing the boundary *)

(** Values of query parameters and blob metadata. *)
Inductive pyval :=
| VNone
| VStr (s : string)
| VInt (n : Z).

Definition opt_str (o : option string) : pyval :=
  match o with Some s => VStr s | None => VNone end.

(** Decoded JSON documents (and the Python values built from them). *)
Inductive json :=
| JNull
| JBool (b : bool)
| JNum (n : Z)
| JStr (s : string)
| JArr (items : list json)
| JObj (fields : list (string * json)).

Definition opt_json (o : option string) : json :=
  match o with Some s => JStr s | None => JNull end.

Inductive exn :=
| ImageLimitException
| HTTPError (status : Z)
| TypeError
| KeyError (key : string)
| AttributeError
| JSONDecodeError
| OSError (what : string)
| LibraryError (what : string).

Inductive outcome (A : Type) :=
| Ok (a : A)
| Raise (e : exn).
Arguments Ok {A} a.
Arguments Raise {A} e.

(** [requests.Response]: the status, what [.json()] decodes (if it does)
    and the body. *)
Record Response := mkResponse {
  status_code : Z;
  json_body : option json;
  content : string
}.

Definition _download_bounds (num_images : option Z) : outcome Z :=
  let images_to_download :=
    match num_images with
    | None => DEFAULT_NUM_IMAGES
    | Some n => n
    end in
  if ((images_to_download <=? LOWER_LIMIT) || (UPPER_LIMIT <? images_to_download))%bool
  then Raise ImageLimitException
  else Ok images_to_download.

(** ** The outside world *)

(** One entry of the log per call that leaves the program. *)
Inductive event :=
| EPrint (msg : string)
| EStorageClient
| EWalk (top : string)
| ECreateBlob (container : option string) (blob_name : Path) (file_path : Path)
              (content_type : string) (metadata : list (string * pyval))
| EGet (url : string) (params : list (string * pyval))
| EPost (url : string) (params : list (string * pyval)) (body : json)
| EExists (p : Path)
| ERmtree (p : string)
| EMkdir (p : Path)
| EOpen (p : string) (mode : string)
| EWrite (p : string) (data : string)
| ERead (p : string)
| EClose (p : string).

Definition log := list event.
Definition config := gmap string string.
Definition walk_entry : Type := string * list string * list string.

(** What the world answers.  Every answer may depend on the log so far, so
    the same request can be answered differently at different times. *)
Record Env := mkEnv {
  (** [BlobStorage.get_azure_storage_client(config)]: [Some e] raises [e] *)
  env_storage_client : log → config → option exn;
  (** [os.walk(top)]: the (root, dirs, files) triples, in order *)
  env_walk : log → string → list walk_entry;
  (** [blob_storage.create_blob_from_path(...)] *)
  env_create_blob :
    log → option string → Path → Path → string → list (string * pyval) → option exn;
  (** [requests.get(url, params=...)] *)
  env_get : log → string → list (string * pyval) → outcome Response;
  (** [requests.post(url, params=..., json=...)] *)
  env_post : log → string → list (string * pyval) → json → outcome Response;
  (** [path.exists()] *)
  env_exists : log → Path → bool;
  (** [path.mkdir(parents=True, exist_ok=True)] *)
  env_mkdir : log → Path → option exn;
  (** [open(path, mode)] *)
  env_open : log → string → string → option exn;
  (** [file.write(data)] *)
  env_write : log → string → string → option exn;
  (** reading the whole of an open file *)
  env_read : log → string → outcome string
}.

(** Functions of libraries and of modules of this repository that are not
    part of operations.py.  They are parameters of the development. *)
Record Lib := mkLib {
  (** [json.loads]: [None] is a decoding error *)
  json_loads : string → option json;
  (** [json.dumps] *)
  json_dumps : json → string;
  (** [os.path.expanduser] *)
  expanduser : string → string;
  (** [urlpath.URL(u).name]: the final path component of the URL *)
  url_name : string → string;
  (** [functions.pipeline.shared.db_access.ImageLabel] and its [fromJson] *)
  ImageLabel : Type;
  ImageLabel_fromJson : json → outcome ImageLabel;
  (** [utils.vott_parser.create_vott_json_from_image_labels]: the labeling
      tool document and the image URLs *)
  create_vott_json_from_image_labels : list ImageLabel → json → outcome (json * json);
  (** [utils.vott_parser.process_vott_json] *)
  process_vott_json : json → outcome json
}.

(** ** The monad of the flows: a log and exceptions *)

Definition M (A : Type) : Type := log → outcome A * log.

Definition ret {A} (a : A) : M A := fun h => (Ok a, h).

Definition bind {A B} (m : M A) (k : A → M B) : M B :=
  fun h =>
    match m h with
    | (Ok a, h') => k a h'
    | (Raise e, h') => (Raise e, h')
    end.

Definition raise {A} (e : exn) : M A := fun h => (Raise e, h).

Definition lift {A} (o : outcome A) : M A := fun h => (o, h).

(** A call to the world: it is logged, then answered from the log before it. *)
Definition call {A} (e : event) (answer : log → outcome A) : M A :=
  fun h => (answer h, h ++ [e]).

(** [try: body finally: fin] *)
Definition finally {A} (body : M A) (fin : M unit) : M A :=
  fun h =>
    match body h with
    | (Ok a, h') =>
        match fin h' with
        | (Ok _, h'') => (Ok a, h'')
        | (Raise e, h'') => (Raise e, h'')
        end
    | (Raise e, h') =>
        match fin h' with
        | (Ok _, h'') => (Raise e, h'')
        | (Raise e', h'') => (Raise e', h'')
        end
    end.

Declare Scope flow_scope.
Delimit Scope flow_scope with flow.
Notation "x <- c ;; k" := (bind c (fun x => k))
  (at level 100, c at next level, right associativity) : flow_scope.
Notation "c ;; k" := (bind c (fun _ => k))
  (at level 100, right associativity) : flow_scope.
Local Open Scope flow_scope.

(** [for x in l: body x] *)
Fixpoint for_each {A} (l : list A) (body : A → M unit) : M unit :=
  match l with
  | [] => ret tt
  | x :: l' => body x ;; for_each l' body
  end.

(** [[f(x) for x in l]] *)
Fixpoint map_M {A B} (f : A → M B) (l : list A) : M (list B) :=
  match l with
  | [] => ret []
  | x :: l' => y <- f x ;; ys <- map_M f l' ;; ret (y :: ys)
  end.

Definition of_option (o : option exn) : outcome unit :=
  match o with Some e => Raise e | None => Ok tt end.

(** [a + b] where [a] came out of [config.get]: [None + str] is a TypeError. *)
Definition str_add (a : option string) (b : string) : M string :=
  match a with
  | Some s => ret (s +:+ b)
  | None => raise TypeError
  end.

(** [a + b] where [b] may be [None]: [str + None] is a TypeError. *)
Definition add_str (a : string) (b : option string) : M string :=
  match b with
  | Some s => ret (a +:+ s)
  | None => raise TypeError
  end.

(** [Response.raise_for_status] of requests: an HTTPError for a 4xx or 5xx
    status, nothing otherwise. *)
Definition is_http_error (status : Z) : bool :=
  ((400 <=? status) && (status <? 600))%bool.

Definition raise_for_status (r : Response) : M unit :=
  if is_http_error (status_code r) then raise (HTTPError (status_code r))
  else ret tt.

(** [Response.json] *)
Definition response_json (r : Response) : M json :=
  match json_body r with
  | Some j => ret j
  | None => raise JSONDecodeError
  end.

(** [len(v)] and iteration over a decoded JSON value, as Python does it:
    a list by its items, a dict by its keys, a string by its characters. *)
Fixpoint chars (s : string) : list json :=
  match s with
  | EmptyString => []
  | String c s' => JStr (String c EmptyString) :: chars s'
  end.

Definition py_iter (v : json) : outcome (list json) :=
  match v with
  | JArr items => Ok items
  | JObj fields => Ok (map (fun kv => JStr (fst kv)) fields)
  | JStr s => Ok (chars s)
  | _ => Raise TypeError
  end.

Definition py_len (v : json) : outcome nat :=
  match py_iter v with
  | Ok items => Ok (List.length items)
  | Raise e => Raise e
  end.

(** [d[key]] on a decoded JSON value *)
Fixpoint assoc (key : string) (fields : list (string * json)) : option json :=
  match fields with
  | [] => None
  | (k, v) :: rest => if String.eqb k key then Some v else assoc key rest
  end.

(** A dict literal keeps the last value of a repeated key; lookups below go
    through [dict_get], which reads the last binding. *)
Definition dict_get (key : string) (fields : list (string * json)) : option json :=
  assoc key (rev fields).

Definition subscript (v : json) (key : string) : outcome json :=
  match v with
  | JObj fields =>
      match dict_get key fields with
      | Some x => Ok x
      | None => Raise (KeyError key)
      end
  | _ => Raise TypeError
  end.

(** [bool(v)] *)
Definition truthy (v : json) : bool :=
  match v with
  | JNull => false
  | JBool b => b
  | JNum n => negb (n =? 0)
  | JStr s => negb (String.eqb s "")
  | JArr items => negb (Nat.eqb (List.length items) 0)
  | JObj fields => negb (Nat.eqb (List.length fields) 0)
  end.

(** [iter_slices(content, n)] of requests: consecutive slices of [n]
    characters, the last one possibly shorter. *)
Fixpoint take (n : nat) (s : string) : string :=
  match n, s with
  | S k, String c s' => String c (take k s')
  | _, _ => EmptyString
  end.

Fixpoint iter_slices_fuel (fuel n : nat) (s : string) : list string :=
  match fuel with
  | O => []
  | S f =>
      match s with
      | EmptyString => []
      | _ => take n s :: iter_slices_fuel f n (Str.drop n s)
      end
  end.

Definition iter_slices (s : string) (n : nat) : list string :=
  iter_slices_fuel (String.length s) n s.

(** The walk of [onboard_folder]: the joined paths of the supported files,
    in the order of the walk. *)
Definition collect_files (root : string) (files : list string)
    (onboarding_files : list string) : list string :=
  fold_left
    (fun acc file_name =>
       if negb (supported_file_type file_name) then acc
       else
         let relative_path := os_path_join root file_name in
         acc ++ [relative_path])
    files onboarding_files.

Definition collect_walk (walked : list walk_entry) : list string :=
  fold_left
    (fun acc (entry : walk_entry) =>
       let '(root, dirs, files) := entry in
       if Nat.eqb (List.length files) 0 then acc
       else collect_files root files acc)
    walked [].

(** ** The flows of operations.py *)

Section Flows.

Variable env : Env.
Variable lib : Lib.

Definition print (msg : string) : M unit :=
  call (EPrint msg) (fun _ => Ok tt).

Definition get_azure_storage_client (cfg : config) : M unit :=
  call EStorageClient (fun h => of_option (env_storage_client env h cfg)).

Definition os_walk (top : string) : M (list walk_entry) :=
  call (EWalk top) (fun h => Ok (env_walk env h top)).

Definition create_blob_from_path (container : option string)
    (blob_name file_path : Path) (content_type : string)
    (metadata : list (string * pyval)) : M unit :=
  call (ECreateBlob container blob_name file_path content_type metadata)
       (fun h => of_option
          (env_create_blob env h container blob_name file_path content_type metadata)).

Definition requests_get (url : string) (params : list (string * pyval)) : M Response :=
  call (EGet url params) (fun h => env_get env h url params).

Definition requests_post (url : string) (params : list (string * pyval))
    (body : json) : M Response :=
  call (EPost url params body) (fun h => env_post env h url params body).

Definition path_exists (p : Path) : M bool :=
  call (EExists p) (fun h => Ok (env_exists env h p)).

(** [shutil.rmtree(p, ignore_errors=True)]: never raises *)
Definition rmtree (p : string) : M unit :=
  call (ERmtree p) (fun _ => Ok tt).

Definition mkdir (p : Path) : M unit :=
  call (EMkdir p) (fun h => of_option (env_mkdir env h p)).

Definition file_write (p data : string) : M unit :=
  call (EWrite p data) (fun h => of_option (env_write env h p data)).

Definition file_read (p : string) : M string :=
  call (ERead p) (fun h => env_read env h p).

Definition file_close (p : string) : M unit :=
  call (EClose p) (fun _ => Ok tt).

(** [with open(p, mode) as file: body].  The file is closed when the
    block is left, also by an exception; a [file.close()] that ends the
    block is that same close. *)
Definition with_open {A} (p mode : string) (body : M A) : M A :=
  call (EOpen p mode) (fun h => of_option (env_open env h p mode)) ;;
  finally body (file_close p).

(** *** onboard *)

Definition onboard_container (cfg : config)
    (account key container : option string) : M unit :=
  print "onboarding from storage container" ;;
  function_url <- str_add (cfg !! "url") "/api/onboardcontainer" ;;
  let user_name := cfg !! "tagging_user" in
  msg <- add_str "Onboarding storage container " container ;;
  print (msg +:+ " into dataset") ;;
  let query := [("userName", opt_str user_name)] in
  let data := JObj [("storageAccount", opt_json account);
                    ("storageAccountKey", opt_json key);
                    ("storageContainer", opt_json container)] in
  resp <- requests_post function_url query data ;;
  raise_for_status resp ;;
  print "Set up container for onboarding. Onboarding may take some time.".

(** The body of the upload loop of [onboard_folder]. *)
Definition upload_blob (cfg : config) (folder_name blob_path : string) : M unit :=
  let stripped_path := strip_path_prefix folder_name blob_path in
  print ("Uploading " +:+ blob_path) ;;
  let blob_metadata := [("userFilePath", VStr blob_path);
                        ("uploadUser", opt_str (cfg !! "tagging_user"))] in
  create_blob_from_path
    (cfg !! "storage_temp_container")
    stripped_path
    (PathLib.of_str blob_path)
    "image/png"
    blob_metadata.

Definition onboard_folder (cfg : config) (folder_name : string) : M unit :=
  get_azure_storage_client cfg ;;
  print "Walking file system" ;;
  walked <- os_walk folder_name ;;
  let onboarding_files := collect_walk walked in
  if Nat.eqb (List.length onboarding_files) 0 then
    print "Could not find any valid files to upload"
  else
    for_each onboarding_files (upload_blob cfg folder_name) ;;
    onboard_container cfg
      (cfg !! "storage_account")
      (cfg !! "storage_key")
      (cfg !! "storage_container").

(** *** download *)

Definition write_vott_data (image_dir : Path) (json_resp : json) : M unit :=
  let data_file := PathLib.join image_dir "../data.json" in
  vott_data <- lift (match json_resp with
                     | JObj fields => Ok (default JNull (dict_get "vott_json" fields))
                     | _ => Raise AttributeError
                     end) ;;
  if negb (truthy vott_data) then ret tt
  else
    with_open (PathLib.str data_file) "w"
      (let vott_json_string := json_dumps lib vott_data in
       (* writelines on a string writes it character by character *)
       for_each (String.list_ascii_of_string vott_json_string)
                (fun c => file_write (PathLib.str data_file) (String c EmptyString))).

(** [URL(url_path)] wants a string. *)
Definition as_url (v : json) : M string :=
  match v with
  | JStr s => ret s
  | _ => raise TypeError
  end.

(** The body of the loop of [download_images]; it returns the path it
    appends to [downloaded_file_paths]. *)
Definition download_image (image_dir : Path) (url_path : json) : M Path :=
  url <- as_url url_path ;;
  response <- requests_get url [] ;;
  let file_path := PathLib.join image_dir (url_name lib url) in
  with_open (PathLib.str file_path) "wb"
    (for_each (iter_slices (content response) 128)
              (fun chunk => file_write (PathLib.str file_path) chunk)) ;;
  ret file_path.

Definition download_images (cfg : config) (image_dir : Path) (json_resp : json)
    : M (list Path) :=
  print ("Downloading files to " +:+ PathLib.str image_dir) ;;
  write_vott_data image_dir json_resp ;;
  urls <- lift (subscript json_resp "imageUrls") ;;
  url_list <- lift (py_iter urls) ;;
  map_M (download_image image_dir) url_list.

(** Lines 163-188 of [download]: what it does once the service has
    returned at least one image. *)
Definition download_batch (cfg : config) (json_resp images_json : json) : M unit :=
  location <- lift (match cfg !! "tagging_location" with
                    | Some s => Ok (expanduser lib s)
                    | None => Raise TypeError
                    end) ;;
  let file_tree := PathLib.of_str location in
  tree_exists <- path_exists file_tree ;;
  (if tree_exists then
     print ("Removing existing tag data directory: " +:+ PathLib.str file_tree) ;;
     rmtree (PathLib.str file_tree)
   else ret tt) ;;
  let data_dir := PathLib.join file_tree "data" in
  mkdir data_dir ;;
  items <- lift (py_iter images_json) ;;
  checkedout_image_labels <- map_M (fun item => lift (ImageLabel_fromJson lib item)) items ;;
  classification_list <- lift (subscript json_resp "classification_list") ;;
  created <- lift (create_vott_json_from_image_labels lib
                     checkedout_image_labels classification_list) ;;
  let '(vott_json, image_urls) := created in
  let json_data := JObj [("vott_json", vott_json); ("imageUrls", image_urls)] in
  local_images <- download_images cfg data_dir json_data ;;
  let count := List.length local_images in
  print ("Successfully downloaded " +:+ Str.of_nat count +:+ " images.") ;;
  for_each local_images (fun image_path => print (PathLib.str image_path)) ;;
  print "Ready to tag!".

(** The query of the images request. *)
Definition images_query (cfg : config) (images_to_download : Z)
    : list (string * pyval) :=
  [("imageCount", VInt images_to_download);
   ("userName", opt_str (cfg !! "tagging_user"));
   ("checkOut", VStr "true")].

Definition download (cfg : config) (num_images : option Z) : M unit :=
  functions_url <- str_add (cfg !! "url") "/api/images" ;;
  images_to_download <- lift (_download_bounds num_images) ;;
  let query := images_query cfg images_to_download in
  response <- requests_get functions_url query ;;
  raise_for_status response ;;
  json_resp <- response_json response ;;
  images <- lift (subscript json_resp "images") ;;
  images_json <- lift (match images with
                       | JStr s => match json_loads lib s with
                                   | Some j => Ok j
                                   | None => Raise JSONDecodeError
                                   end
                       | _ => Raise TypeError
                       end) ;;
  count <- lift (py_len images_json) ;;
  print ("Received " +:+ Str.of_nat count +:+ " files.") ;;
  if Nat.eqb count 0 then
    print "No images could be retrieved with the current retrieval strategy!"
  else
    download_batch cfg json_resp images_json.

(** *** upload *)

Definition upload (cfg : config) : M unit :=
  functions_url <- str_add (cfg !! "url") "/api/labels" ;;
  let user_name := cfg !! "tagging_user" in
  location <- lift (match cfg !! "tagging_location" with
                    | Some s => Ok (expanduser lib s)
                    | None => Raise TypeError
                    end) ;;
  let tagging_location := PathLib.of_str location in
  print "Uploading VOTT json file..." ;;
  let vott_json := PathLib.join tagging_location "data.json" in
  json_data <- with_open (PathLib.str vott_json) "r"
                 (text <- file_read (PathLib.str vott_json) ;;
                  lift (match json_loads lib text with
                        | Some j => Ok j
                        | None => Raise JSONDecodeError
                        end)) ;;
  process_json <- lift (process_vott_json lib json_data) ;;
  let query := [("userName", opt_str user_name); ("upload", VStr "true")] in
  response <- requests_post functions_url query process_json ;;
  raise_for_status response ;;
  resp_json <- response_json response ;;
  print "Done!".

End Flows.

(** ** What a log says about the remote side and the local files *)

(** The calls that reach blob storage or the labeling service. *)
Definition is_remote (e : event) : bool :=
  match e with
  | ECreateBlob _ _ _ _ _ | EGet _ _ | EPost _ _ _ => true
  | _ => false
  end.

Definition remote_calls (t : log) : list event := List.filter is_remote t.

(** The local files handed to blob storage, in order. *)
Definition uploaded_files (t : log) : list Path :=
  flat_map (fun e => match e with
                     | ECreateBlob _ _ file_path _ _ => [file_path]
                     | _ => []
                     end) t.

(** The calls that change the local file system. *)
Definition is_fs_change (e : event) : bool :=
  match e with
  | ERmtree _ | EMkdir _ | EWrite _ _ => true
  | EOpen _ mode => negb (String.eqb mode "r")
  | _ => false
  end.

Definition fs_changes (t : log) : list event := List.filter is_fs_change t.


(** ** The log entries of the onboard flow *)

(** The upload of one file. *)
Definition blob_event (cfg : config) (folder_name blob_path : string) : event :=
  ECreateBlob (cfg !! "storage_temp_container")
              (strip_path_prefix folder_name blob_path)
              (PathLib.of_str blob_path)
              "image/png"
              [("userFilePath", VStr blob_path);
               ("uploadUser", opt_str (cfg !! "tagging_user"))].

Definition upload_events (cfg : config) (folder_name : string)
    (files : list string) : log :=
  flat_map (fun p => [EPrint ("Uploading " +:+ p); blob_event cfg folder_name p]) files.

(** The supported files of one (root, dirs, files) triple of the walk, as
    joined paths. *)
Definition supported_in (entry : walk_entry) : list string :=
  let '(root, dirs, files) := entry in
  map (os_path_join root) (filter (fun f => supported_file_type f = true) files).

(** ** The answer of the images endpoint *)

(** The images endpoint answers the request of [download] with a success
    status and a document whose "images" field decodes to the batch
    [items]. *)
Definition images_endpoint_returns (env : Env) (lib : Lib) (cfg : config)
    (num_images : option Z) (h0 : log) (url : string) (k : Z)
    (json_resp images_json : json) (items : list json) : Prop :=
  cfg !! "url" = Some url ∧
  _download_bounds num_images = Ok k ∧
  ∃ resp s,
    env_get env h0 (url +:+ "/api/images") (images_query cfg k) = Ok resp ∧
    is_http_error (status_code resp) = false ∧
    json_body resp = Some json_resp ∧
    subscript json_resp "images" = Ok (JStr s) ∧
    json_loads lib s = Some images_json ∧
    py_iter images_json = Ok items.

(** The log of [download] up to the message that reports the batch. *)
Definition received_log (cfg : config) (url : string) (k : Z) (count : nat) : log :=
  [EGet (url +:+ "/api/images") (images_query cfg k);
   EPrint ("Received " +:+ Str.of_nat count +:+ " files.")].

(** ** The log entries of the download flow *)

(** The files opened, with their mode, in order. *)
Definition opened (t : log) : list (string * string) :=
  flat_map (fun e => match e with
                     | EOpen p mode => [(p, mode)]
                     | _ => []
                     end) t.

(** Writing the labeling-tool document next to [image_dir]. *)
Definition vott_events (lib : Lib) (image_dir : Path) (vott_json : json) : log :=
  let p := PathLib.str (PathLib.join image_dir "../data.json") in
  EOpen p "w"
  :: map (fun c => EWrite p (String c EmptyString))
         (String.list_ascii_of_string (json_dumps lib vott_json))
  ++ [EClose p].

(** Fetching one image whose request was answered with [r]. *)
Definition image_events (lib : Lib) (image_dir : Path) (u : string) (r : Response) : log :=
  let p := PathLib.str (PathLib.join image_dir (url_name lib u)) in
  [EGet u []; EOpen p "wb"] ++ map (EWrite p) (iter_slices (content r) 128) ++ [EClose p].

(** The local file system takes every open and every write. *)
Definition files_writable (env : Env) : Prop :=
  (∀ h p mode, env_open env h p mode = None) ∧
  (∀ h p data, env_write env h p data = None).

(** Every request for one of [urls] is answered. *)
Definition images_served (env : Env) (urls : list string) : Prop :=
  ∀ h u, u ∈ urls → ∃ r, env_get env h u [] = Ok r.

(** A name that pathlib takes as a single component. *)
Fixpoint has_slash (s : string) : bool :=
  match s with
  | EmptyString => false
  | String c s' => Ascii.eqb c "/" || has_slash s'
  end.

Definition plain_component (s : string) : bool :=
  negb (has_slash s) && PathLib.is_component s.

(** [os.path.normpath] on the components of a path: what the path denotes
    when no component is a symbolic link. *)
Definition normpath_step (rooted : bool) (new_comps : list string) (comp : string)
    : list string :=
  if (String.eqb comp "" || String.eqb comp ".")%bool then new_comps
  else if (negb (String.eqb comp "..")
           || (negb rooted && Nat.eqb (List.length new_comps) 0)
           || String.eqb (List.last new_comps "") "..")%bool
       then new_comps ++ [comp]
       else List.removelast new_comps.

Definition normpath (p : Path) : list string :=
  fold_left (normpath_step (negb (String.eqb (p_root p) ""))) (p_parts p) [].

(** ** Removing the occurrences of a substring *)

(** [old] occurs in [s] at index [i]. *)
Definition occurs_at (old s : string) (i : nat) : Prop :=
  String.prefix old (Str.drop i s) = true.

(** [removed old s r]: [r] is [s] without the occurrences of the non-empty
    [old], found from left to right, each search resuming after the
    occurrence just removed. *)
Inductive removed (old : string) : string → string → Prop :=
| removed_end :
    removed old EmptyString EmptyString
| removed_occurrence (rest r : string) :
    old ≠ EmptyString →
    removed old rest r →
    removed old (old +:+ rest) r
| removed_keep (c : ascii) (rest r : string) :
    String.prefix old (String c rest) = false →
    removed old rest r →
    removed old (String c rest) (String c r).

(** [s] without one leading '/', if it has one. *)
Definition without_leading_slash (s : string) : string :=
  if Str.startswith "/" s then Str.drop 1 s else s.

(** ** A sample world

    One concrete configuration, library and environment, on which the
    flows can be run and the statements below checked. *)

Module Sample.

Definition cfg : config :=
  list_to_map
    [("url", "https://svc.example");
     ("tagging_user", "ana");
     ("tagging_location", "/home/ana/tags");
     ("storage_account", "acct");
     ("storage_key", "secret");
     ("storage_container", "images");
     ("storage_temp_container", "onboarding")].

(** A folder with two images, a text file, a hidden file and a
    sub-folder. *)
Definition walked : list walk_entry :=
  [("/photos", ["raw"], ["a.png"; "notes.txt"; ".hidden.jpg"]);
   ("/photos/raw", [], ["b.JPG"])].

(** A folder without any image. *)
Definition walked_docs : list walk_entry :=
  [("/docs", [], ["readme.md"; ".env"])].

(** A toy decoder: the text is a comma-separated list of strings. *)
Definition loads (s : string) : option json :=
  if String.eqb s "" then Some (JArr [])
  else Some (JArr (map JStr (Str.split "," s))).

(** A toy encoder: strings as they are, lists joined by commas. *)
Definition dumps (j : json) : string :=
  match j with
  | JStr s => s
  | JArr items =>
      Str.join "," (map (fun x => match x with JStr s => s | _ => "?" end) items)
  | _ => "{}"
  end.

Definition lib : Lib :=
  {| json_loads := loads;
     json_dumps := dumps;
     expanduser := fun s => s;
     url_name := fun u => List.last (Str.split "/" u) "";
     ImageLabel := string;
     ImageLabel_fromJson :=
       fun j => match j with JStr s => Ok s | _ => Raise TypeError end;
     create_vott_json_from_image_labels :=
       fun labels classification_list =>
         Ok (JObj [("frames", JArr (map JStr labels));
                   ("inputTags", classification_list)],
             JArr (map JStr labels));
     process_vott_json := fun j => Ok (JObj [("labels", j)]) |}.

(** The service answers every request with [status]; the images
    endpoint returns the batch encoded in [images]; image requests (no
    query) are answered with a small body; the local files and the blob
    store accept everything; the tagging location exists. *)
Definition env (status : Z) (images : string) : Env :=
  {| env_storage_client := fun _ _ => None;
     env_walk :=
       fun _ top =>
         if String.eqb top "/photos" then walked
         else if String.eqb top "/docs" then walked_docs
         else [];
     env_create_blob := fun _ _ _ _ _ _ => None;
     env_get :=
       fun _ url params =>
         match params with
         | [] => Ok (mkResponse 200 None "image bytes")
         | _ => Ok (mkResponse status
                      (Some (JObj [("images", JStr images);
                                   ("classification_list", JArr [JStr "cat"])]))
                      "")
         end;
     env_post := fun _ _ _ _ => Ok (mkResponse status (Some JNull) "");
     env_exists := fun _ _ => true;
     env_mkdir := fun _ _ => None;
     env_open := fun _ _ _ => None;
     env_write := fun _ _ _ => None;
     env_read := fun _ _ => Ok "frame1,frame2" |}.

Definition two_images : string :=
  "https://cdn.example/img/1.jpg,https://cdn.example/img/2.jpg".

End Sample.

(** ** What a flow may add to the log *)

(** Every entry that [m] adds to the log satisfies [P], whatever the world
    answers and however the run ends. *)
Definition emits {A} (P : event → Prop) (m : M A) : Prop :=
  ∀ h, ∃ new, snd (m h) = h ++ new ∧ Forall P new.

(** The calls of the onboard flow: messages, the storage client, the walk,
    uploads to the temporary container typed image/png with the two
    metadata fields, and requests to the onboard-container endpoint. *)
Definition onboard_may (cfg : config) (e : event) : Prop :=
  match e with
  | EPrint _ | EStorageClient | EWalk _ => True
  | ECreateBlob container _ file_path content_type metadata =>
      container = cfg !! "storage_temp_container"
      ∧ content_type = "image/png"
      ∧ ∃ blob_path,
          file_path = PathLib.of_str blob_path
          ∧ metadata = [("userFilePath", VStr blob_path);
                        ("uploadUser", opt_str (cfg !! "tagging_user"))]
  | EPost url params _ =>
      (∃ base, cfg !! "url" = Some base ∧ url = base +:+ "/api/onboardcontainer")
      ∧ params = [("userName", opt_str (cfg !! "tagging_user"))]
  | _ => False
  end.

(** The calls of the download flow: messages, GET requests, and local
    files that are only removed, created or written. *)
Definition download_may (e : event) : Prop :=
  match e with
  | EPrint _ | EGet _ _ | EExists _ | ERmtree _ | EMkdir _
  | EWrite _ _ | EClose _ => True
  | EOpen _ mode => mode = "w" ∨ mode = "wb"
  | _ => False
  end.

(** The calls of the upload flow: messages, one file read, and requests to
    the labels endpoint. *)
Definition upload_may (cfg : config) (lib : Lib) (e : event) : Prop :=
  match e with
  | EPrint _ => True
  | EOpen p "r" | ERead p | EClose p =>
      ∃ location,
        cfg !! "tagging_location" = Some location
        ∧ p = PathLib.str (PathLib.join (PathLib.of_str (expanduser lib location))
                                        "data.json")
  | EPost url params _ =>
      (∃ base, cfg !! "url" = Some base ∧ url = base +:+ "/api/labels")
      ∧ params = [("userName", opt_str (cfg !! "tagging_user")); ("upload", VStr "true")]
  | _ => False
  end.

(** ** Names with and without a dot *)

Fixpoint has_dot (s : string) : bool :=
  match s with
  | EmptyString => false
  | String c s' => Ascii.eqb c "." || has_dot s'
  end.

(** The data written to the file [p], in order. *)
Fixpoint written (p : string) (t : log) : string :=
  match t with
  | [] => EmptyString
  | EWrite q data :: t' =>
      if String.eqb q p then data +:+ written p t' else written p t'
  | _ :: t' => written p t'
  end.

(** ** Variations of the sample world *)

(** The sample world with other answers to POST requests, to image
    requests and to writes. *)
Definition sample_env_with
    (post : log → string → list (string * pyval) → json → outcome Response)
    (image : Response)
    (write : log → string → string → option exn) : Env :=
  let base := Sample.env 200 Sample.two_images in
  {| env_storage_client := env_storage_client base;
     env_walk := env_walk base;
     env_create_blob := env_create_blob base;
     env_get := fun h url params =>
                  match params with
                  | [] => Ok image
                  | _ => env_get base h url params
                  end;
     env_post := post;
     env_exists := env_exists base;
     env_mkdir := env_mkdir base;
     env_open := env_open base;
     env_write := write;
     env_read := env_read base |}.

(** ** The container an onboard request asks for *)

(** * Properties *)

(** ** The pure helpers on examples *)

Example supported_examples :
  map supported_file_type
      ["a.png"; "B.JPG"; "c.Jpeg"; "d.gif"; ".png"; ".hidden.png"; "e.txt";
       "png"; "f.png."; "g.tar.gif"; "h."; ""]
  = [true; true; true; true; false; false; false; false; false; true; false; false].
Proof. vm_compute. reflexivity. Qed.

Example strip_examples :
  map (fun '(d, f) => PathLib.str (strip_path_prefix d f))
      [("/my/full/path", "/my/full/path/1.jpg");
       ("img", "img/a/img/b.png");
       ("", "a/b.png");
       ("x", "x")]
  = ["1.jpg"; "a/b.png"; "a/b.png"; "."].
Proof. vm_compute. reflexivity. Qed.

(** ** Running the flows: basic equations *)

Lemma print_run (msg : string) (h : log) :
  print msg h = (Ok tt, h ++ [EPrint msg]).
Proof. reflexivity. Qed.

Lemma bind_ret {A B} (a : A) (k : A → M B) (h : log) :
  bind (ret a) k h = k a h.
Proof. reflexivity. Qed.

Lemma bind_lift {A B} (o : outcome A) (k : A → M B) (h : log) :
  bind (lift o) k h = match o with Ok a => k a h | Raise e => (Raise e, h) end.
Proof. destruct o; reflexivity. Qed.

Lemma bind_call {A B} (e : event) (answer : log → outcome A) (k : A → M B) (h : log) :
  bind (call e answer) k h =
  match answer h with
  | Ok a => k a (h ++ [e])
  | Raise x => (Raise x, h ++ [e])
  end.
Proof. unfold bind, call. destruct (answer h); reflexivity. Qed.

Lemma bind_print {B} (msg : string) (k : unit → M B) (h : log) :
  bind (print msg) k h = k tt (h ++ [EPrint msg]).
Proof. reflexivity. Qed.

Lemma with_open_run env {A} (p mode : string) (body : M A) (h : log) :
  with_open env p mode body h =
  match env_open env h p mode with
  | Some e => (Raise e, h ++ [EOpen p mode])
  | None =>
      match body (h ++ [EOpen p mode]) with
      | (Ok a, h') => (Ok a, h' ++ [EClose p])
      | (Raise e, h') => (Raise e, h' ++ [EClose p])
      end
  end.
Proof.
  unfold with_open. rewrite bind_call.
  destruct (env_open env h p mode); [reflexivity|].
  cbn [of_option]. unfold finally, file_close, call.
  destruct (body _) as [[a|e] h']; reflexivity.
Qed.

(** The log only grows. *)
Definition extends {A} (m : M A) : Prop :=
  ∀ h, ∃ new, snd (m h) = h ++ new.

Lemma extends_ret {A} (a : A) : extends (ret a).
Proof. intros h. exists []. simpl. by rewrite app_nil_r. Qed.

Lemma extends_raise {A} (e : exn) : extends (@raise A e).
Proof. intros h. exists []. simpl. by rewrite app_nil_r. Qed.

Lemma extends_lift {A} (o : outcome A) : extends (lift o).
Proof. intros h. exists []. simpl. by rewrite app_nil_r. Qed.

Lemma extends_call {A} (e : event) (answer : log → outcome A) : extends (call e answer).
Proof. intros h. exists [e]. reflexivity. Qed.

Lemma extends_bind {A B} (m : M A) (k : A → M B) :
  extends m → (∀ a, extends (k a)) → extends (bind m k).
Proof.
  intros Hm Hk h. unfold bind.
  destruct (Hm h) as [n1 E1]. destruct (m h) as [[a|e] h1]; simpl in E1; subst h1.
  - destruct (Hk a (h ++ n1)) as [n2 E2]. exists (n1 ++ n2).
    rewrite E2. by rewrite app_assoc.
  - by exists n1.
Qed.

Lemma extends_for_each {A} (l : list A) (body : A → M unit) :
  (∀ x, extends (body x)) → extends (for_each l body).
Proof.
  intros Hb. induction l as [|x l IH]; simpl.
  - apply extends_ret.
  - apply extends_bind; [apply Hb | intros _; apply IH].
Qed.

Lemma extends_map_M {A B} (f : A → M B) (l : list A) :
  (∀ x, extends (f x)) → extends (map_M f l).
Proof.
  intros Hf. induction l as [|x l IH]; simpl.
  - apply extends_ret.
  - apply extends_bind; [apply Hf | intros y].
    apply extends_bind; [apply IH | intros ys; apply extends_ret].
Qed.

Lemma extends_finally {A} (body : M A) (fin : M unit) :
  extends body → extends fin → extends (finally body fin).
Proof.
  intros Hb Hf h. unfold finally.
  destruct (Hb h) as [n1 E1]. destruct (body h) as [[a|e] h1]; simpl in E1; subst h1.
  - destruct (Hf (h ++ n1)) as [n2 E2]. exists (n1 ++ n2).
    destruct (fin (h ++ n1)) as [[u|e] h2]; simpl in *; subst h2; by rewrite app_assoc.
  - destruct (Hf (h ++ n1)) as [n2 E2]. exists (n1 ++ n2).
    destruct (fin (h ++ n1)) as [[u|e'] h2]; simpl in *; subst h2; by rewrite app_assoc.
Qed.

(** Every flow is built from pieces that only add to the log. *)
Create HintDb flows.
#[local] Hint Unfold as_url str_add add_str raise_for_status response_json
  print get_azure_storage_client os_walk create_blob_from_path requests_get
  requests_post path_exists rmtree mkdir file_write file_read file_close
  with_open : flows.

Ltac extends_step :=
  first
    [ apply extends_ret | apply extends_raise | apply extends_lift
    | apply extends_call
    | apply extends_bind; [|intro]
    | apply extends_for_each; intro
    | apply extends_map_M; intro
    | apply extends_finally
    | match goal with
      | |- extends (match ?x with _ => _ end) => destruct x
      | |- extends (if ?b then _ else _) => destruct b
      end
    | progress autounfold with flows ].

Ltac extends_tac := repeat extends_step.

Lemma extends_with_open env {A} (p mode : string) (body : M A) :
  extends body → extends (with_open env p mode body).
Proof. intros Hb. unfold with_open, file_close. extends_tac. exact Hb. Qed.

Lemma extends_onboard_container env cfg account key container :
  extends (onboard_container env cfg account key container).
Proof.
  unfold onboard_container, print, str_add, add_str, requests_post,
    raise_for_status.
  extends_tac.
Qed.

Lemma extends_write_vott_data env lib image_dir json_resp :
  extends (write_vott_data env lib image_dir json_resp).
Proof.
  unfold write_vott_data, file_write. extends_tac.
Qed.

Lemma extends_download_image env lib image_dir url_path :
  extends (download_image env lib image_dir url_path).
Proof.
  unfold download_image, as_url, requests_get, file_write. extends_tac.
Qed.

Lemma extends_download_images env lib cfg image_dir json_resp :
  extends (download_images env lib cfg image_dir json_resp).
Proof.
  unfold download_images, print.
  extends_tac.
Qed.

Lemma extends_download_batch env lib cfg json_resp images_json :
  extends (download_batch env lib cfg json_resp images_json).
Proof. unfold download_batch. extends_tac. Qed.

Lemma extends_download env lib cfg num_images :
  extends (download env lib cfg num_images).
Proof.
  unfold download. extends_tac.
Qed.

Lemma extends_upload env lib cfg :
  extends (upload env lib cfg).
Proof.
  unfold upload, print, str_add, requests_post, raise_for_status,
    response_json, file_read.
  extends_tac.
Qed.

(** ** The walk of onboard_folder *)

Lemma collect_files_spec root files acc :
  collect_files root files acc =
  acc ++ map (os_path_join root) (filter (fun f => supported_file_type f = true) files).
Proof.
  unfold collect_files. revert acc.
  induction files as [|f files IH]; intros acc; simpl.
  - by rewrite app_nil_r.
  - rewrite IH. rewrite filter_cons.
    destruct (decide (supported_file_type f = true)) as [E|E].
    + rewrite E. simpl. by rewrite <- app_assoc.
    + apply not_true_is_false in E. rewrite E. reflexivity.
Qed.

Lemma collect_walk_from walked acc :
  fold_left
    (fun acc (entry : walk_entry) =>
       let '(root, dirs, files) := entry in
       if Nat.eqb (List.length files) 0 then acc
       else collect_files root files acc)
    walked acc
  = acc ++ flat_map supported_in walked.
Proof.
  revert acc. induction walked as [|[[root dirs] files] walked IH]; intros acc; simpl.
  - by rewrite app_nil_r.
  - rewrite IH. destruct files as [|f files].
    + simpl. reflexivity.
    + cbn [List.length Nat.eqb]. rewrite collect_files_spec. by rewrite <- app_assoc.
Qed.

Lemma collect_walk_spec walked :
  collect_walk walked = flat_map supported_in walked.
Proof. unfold collect_walk. by rewrite collect_walk_from. Qed.

(** ** Projections of a log *)

Lemma remote_calls_app t1 t2 :
  remote_calls (t1 ++ t2) = remote_calls t1 ++ remote_calls t2.
Proof. apply List.filter_app. Qed.

Lemma uploaded_files_app t1 t2 :
  uploaded_files (t1 ++ t2) = uploaded_files t1 ++ uploaded_files t2.
Proof. apply flat_map_app. Qed.

Lemma fs_changes_app t1 t2 :
  fs_changes (t1 ++ t2) = fs_changes t1 ++ fs_changes t2.
Proof. apply List.filter_app. Qed.

(** ** onboard_folder *)

Section Onboard.

Variable env : Env.
Variable cfg : config.
Variable folder_name : string.

Hypothesis store_accepts :
  ∀ h c n f ct m, env_create_blob env h c n f ct m = None.

Lemma upload_loop_run files h :
  for_each files (upload_blob env cfg folder_name) h
  = (Ok tt, h ++ upload_events cfg folder_name files).
Proof.
  revert h. induction files as [|p files IH]; intros h; simpl.
  - unfold ret. by rewrite app_nil_r.
  - unfold bind at 1. unfold upload_blob, bind, print, create_blob_from_path, call.
    rewrite store_accepts. simpl. rewrite IH.
    f_equal. rewrite <- !app_assoc. reflexivity.
Qed.

Lemma remote_upload_events files :
  remote_calls (upload_events cfg folder_name files)
  = map (blob_event cfg folder_name) files.
Proof. induction files as [|p files IH]; simpl; [done|]. by rewrite <- IH. Qed.

Lemma uploaded_upload_events files :
  uploaded_files (upload_events cfg folder_name files) = map PathLib.of_str files.
Proof. induction files as [|p files IH]; simpl; [done|]. by rewrite <- IH. Qed.

End Onboard.

(** [onboard_container] never touches blob storage. *)
Lemma onboard_container_no_upload env cfg account key container h :
  uploaded_files (snd (onboard_container env cfg account key container h))
  = uploaded_files h.
Proof.
  unfold onboard_container, bind, print, str_add, add_str, requests_post,
    raise_for_status, call, ret, raise.
  destruct (cfg !! "url"); simpl.
  2:{ rewrite uploaded_files_app. simpl. by rewrite app_nil_r. }
  destruct container; simpl.
  2:{ rewrite uploaded_files_app. simpl. by rewrite app_nil_r. }
  destruct (env_post _ _ _ _ _) as [r|e]; simpl.
  - destruct (is_http_error (status_code r)); simpl;
      rewrite !uploaded_files_app; simpl; by rewrite !app_nil_r.
  - rewrite !uploaded_files_app; simpl; by rewrite !app_nil_r.
Qed.

(** The run of [onboard_folder] once the storage client is there: the walk,
    then either the early return or the upload loop followed by
    [onboard_container]. *)
Lemma onboard_folder_walk env cfg folder_name h0 :
  env_storage_client env h0 cfg = None →
  let h1 := h0 ++ [EStorageClient; EPrint "Walking file system"] in
  let files := flat_map supported_in (env_walk env h1 folder_name) in
  onboard_folder env cfg folder_name h0 =
  match files with
  | [] => (Ok tt, h1 ++ [EWalk folder_name;
                         EPrint "Could not find any valid files to upload"])
  | _ :: _ =>
      bind (for_each files (upload_blob env cfg folder_name))
           (fun _ => onboard_container env cfg
                       (cfg !! "storage_account") (cfg !! "storage_key")
                       (cfg !! "storage_container"))
           (h1 ++ [EWalk folder_name])
  end.
Proof.
  intros Hclient h1 files.
  unfold onboard_folder.
  unfold bind at 1. unfold get_azure_storage_client, call. rewrite Hclient. simpl.
  unfold bind at 1. rewrite print_run.
  unfold bind at 1. unfold os_walk, call.
  rewrite <- app_assoc. simpl. fold h1.
  rewrite collect_walk_spec. fold files.
  destruct files as [|f files'] eqn:E.
  - simpl. rewrite print_run. rewrite <- app_assoc. reflexivity.
  - reflexivity.
Qed.

Lemma onboard_folder_run env cfg folder_name h0 :
  env_storage_client env h0 cfg = None →
  (∀ h c n f ct m, env_create_blob env h c n f ct m = None) →
  let h1 := h0 ++ [EStorageClient; EPrint "Walking file system"] in
  let files := flat_map supported_in (env_walk env h1 folder_name) in
  onboard_folder env cfg folder_name h0 =
  match files with
  | [] => (Ok tt, h1 ++ [EWalk folder_name;
                         EPrint "Could not find any valid files to upload"])
  | _ :: _ =>
      onboard_container env cfg
        (cfg !! "storage_account") (cfg !! "storage_key") (cfg !! "storage_container")
        (h1 ++ [EWalk folder_name] ++ upload_events cfg folder_name files)
  end.
Proof.
  intros Hclient Hstore h1 files.
  rewrite (onboard_folder_walk env cfg folder_name h0 Hclient). cbv zeta.
  fold h1. fold files.
  destruct files as [|f files'] eqn:E; [reflexivity|].
  unfold bind at 1. rewrite (upload_loop_run env cfg folder_name Hstore).
  rewrite <- app_assoc. reflexivity.
Qed.

(** The run of [onboard_container] with a configured service and
    container: two messages, the request, and the closing message unless
    the request raised or was answered with an error status. *)
Lemma onboard_container_run env cfg account key url container h :
  cfg !! "url" = Some url →
  let request :=
    EPost (url +:+ "/api/onboardcontainer")
          [("userName", opt_str (cfg !! "tagging_user"))]
          (JObj [("storageAccount", opt_json account);
                 ("storageAccountKey", opt_json key);
                 ("storageContainer", JStr container)]) in
  let h1 := h ++ [EPrint "onboarding from storage container";
                  EPrint ("Onboarding storage container " +:+ container
                          +:+ " into dataset")] in
  onboard_container env cfg account key (Some container) h =
  match env_post env h1 (url +:+ "/api/onboardcontainer")
          [("userName", opt_str (cfg !! "tagging_user"))]
          (JObj [("storageAccount", opt_json account);
                 ("storageAccountKey", opt_json key);
                 ("storageContainer", JStr container)]) with
  | Ok resp =>
      if is_http_error (status_code resp)
      then (Raise (HTTPError (status_code resp)), h1 ++ [request])
      else (Ok tt, h1 ++ [request;
              EPrint "Set up container for onboarding. Onboarding may take some time."])
  | Raise e => (Raise e, h1 ++ [request])
  end.
Proof.
  intros Hurl request h1.
  unfold onboard_container, bind, print, str_add, add_str, requests_post,
    raise_for_status, call, ret, raise.
  rewrite Hurl. simpl. rewrite <- app_assoc. simpl. fold h1.
  destruct (env_post _ _ _ _ _) as [r|e]; simpl; [|reflexivity].
  destruct (is_http_error (status_code r)); simpl; [reflexivity|].
  rewrite <- app_assoc. reflexivity.
Qed.

(** Whatever the store answers, the files that [onboard_folder] hands to it
    are the supported files of the walk, in order, up to the first upload
    that raises. *)
Lemma upload_blob_run env cfg folder_name blob_path h :
  upload_blob env cfg folder_name blob_path h
  = (of_option
       (env_create_blob env (h ++ [EPrint ("Uploading " +:+ blob_path)])
          (cfg !! "storage_temp_container")
          (strip_path_prefix folder_name blob_path)
          (PathLib.of_str blob_path)
          "image/png"
          [("userFilePath", VStr blob_path);
           ("uploadUser", opt_str (cfg !! "tagging_user"))]),
     h ++ [EPrint ("Uploading " +:+ blob_path); blob_event cfg folder_name blob_path]).
Proof.
  unfold upload_blob. rewrite bind_print.
  unfold create_blob_from_path, call. rewrite <- app_assoc. reflexivity.
Qed.

Lemma upload_loop_attempts env cfg folder_name files h :
  ∃ attempted rest,
    files = attempted ++ rest
    ∧ uploaded_files (snd (for_each files (upload_blob env cfg folder_name) h))
      = uploaded_files h ++ map PathLib.of_str attempted.
Proof.
  revert h. induction files as [|p files IH]; intros h.
  - exists [], []. simpl. rewrite !app_nil_r. done.
  - cbn [for_each]. unfold bind at 1. rewrite upload_blob_run.
    destruct (env_create_blob env _ _ _ _ _ _) as [e|]; cbn [of_option].
    + exists [p], files. split; [done|]. cbn [snd].
      rewrite !uploaded_files_app. reflexivity.
    + destruct (IH (h ++ [EPrint ("Uploading " +:+ p); blob_event cfg folder_name p]))
        as (attempted & rest & -> & Hup).
      exists (p :: attempted), rest. split; [done|].
      rewrite Hup. rewrite !uploaded_files_app.
      rewrite <- app_assoc. reflexivity.
Qed.

Lemma onboard_folder_attempts env cfg folder_name h0 :
  ∃ attempted rest,
    flat_map supported_in
      (env_walk env (h0 ++ [EStorageClient; EPrint "Walking file system"]) folder_name)
    = attempted ++ rest
    ∧ uploaded_files (snd (onboard_folder env cfg folder_name h0))
      = uploaded_files h0 ++ map PathLib.of_str attempted.
Proof.
  destruct (env_storage_client env h0 cfg) as [e|] eqn:Hclient.
  - exists [], (flat_map supported_in
                  (env_walk env (h0 ++ [EStorageClient; EPrint "Walking file system"])
                     folder_name)).
    split; [done|].
    unfold onboard_folder, get_azure_storage_client. rewrite bind_call, Hclient.
    cbn. rewrite uploaded_files_app. cbn. by rewrite !app_nil_r.
  - rewrite (onboard_folder_walk env cfg folder_name h0 Hclient). cbv zeta.
    destruct (flat_map supported_in _) as [|f files].
    + exists [], []. split; [done|]. cbn [snd].
      rewrite !uploaded_files_app. cbn. by rewrite !app_nil_r.
    + destruct (upload_loop_attempts env cfg folder_name (f :: files)
                  ((h0 ++ [EStorageClient; EPrint "Walking file system"])
                   ++ [EWalk folder_name]))
        as (attempted & rest & Hsplit & Hup).
      exists attempted, rest. split; [exact Hsplit|].
      unfold bind at 1.
      destruct (for_each (f :: files) _ _) as [[[]|e] h'] eqn:Hloop; cbn [snd] in *.
      * rewrite onboard_container_no_upload, Hup.
        rewrite !uploaded_files_app. cbn. by rewrite !app_nil_r.
      * rewrite Hup. rewrite !uploaded_files_app. cbn. by rewrite !app_nil_r.
Qed.

Lemma supported_paths (walked : list walk_entry) :
  flat_map (fun entry : walk_entry =>
              let '(root, dirs, files) := entry in
              map (fun file_name => PathLib.of_str (os_path_join root file_name))
                  (filter (fun file_name => supported_file_type file_name = true) files))
           walked
  = map PathLib.of_str (flat_map supported_in walked).
Proof.
  induction walked as [|[[root dirs] files] w IH]; simpl; [done|].
  rewrite map_app, IH. f_equal. by rewrite map_map.
Qed.

(** C1: the files that [onboard_folder] hands to blob storage are taken, in
    the order of the walk, from the files whose name [supported_file_type]
    accepts, and no other file of the walk is ever uploaded; with a storage
    client and a store that accepts every upload they are exactly those
    files.  [supported_file_type] accepts a name if and only if it does
    not start with '.' and its lowered suffix is '.png', '.jpg', '.jpeg'
    or '.gif'. *)
Theorem onboard_folder_uploads_supported env cfg folder_name h0 :
  let walked := env_walk env (h0 ++ [EStorageClient; EPrint "Walking file system"])
                  folder_name in
  let supported :=
    flat_map (fun entry : walk_entry =>
                let '(root, dirs, files) := entry in
                map (fun file_name => PathLib.of_str (os_path_join root file_name))
                    (filter (fun file_name => supported_file_type file_name = true) files))
             walked in
  (∃ attempted rest,
      supported = attempted ++ rest
      ∧ uploaded_files (snd (onboard_folder env cfg folder_name h0))
        = uploaded_files h0 ++ attempted)
  ∧ (env_storage_client env h0 cfg = None →
     (∀ h c n f ct m, env_create_blob env h c n f ct m = None) →
     uploaded_files (snd (onboard_folder env cfg folder_name h0))
     = uploaded_files h0 ++ supported)
  ∧ ∀ file_name,
      supported_file_type file_name = true ↔
      Str.startswith "." file_name = false ∧
      Str.lower (PathLib.suffix (PathLib.of_str file_name))
        ∈ [".png"; ".jpg"; ".jpeg"; ".gif"].
Proof.
  intros walked supported. unfold supported. rewrite supported_paths.
  split; [|split].
  - destruct (onboard_folder_attempts env cfg folder_name h0)
      as (attempted & rest & Hsplit & Hup).
    exists (map PathLib.of_str attempted), (map PathLib.of_str rest).
    fold walked in Hsplit. rewrite Hsplit, map_app. split; [reflexivity | exact Hup].
  - intros Hclient Hstore.
    rewrite (onboard_folder_run env cfg folder_name h0 Hclient Hstore). cbv zeta.
    fold walked.
    destruct (flat_map supported_in walked) as [|f files] eqn:E.
    + simpl. rewrite !uploaded_files_app. simpl. by rewrite !app_nil_r.
    + rewrite onboard_container_no_upload.
      rewrite !uploaded_files_app. rewrite uploaded_upload_events.
      simpl. by rewrite app_nil_r.
  - intros file_name. unfold supported_file_type.
    destruct (Str.startswith "." file_name).
    + split; [discriminate | intros [? _]; discriminate].
    + fold supported_suffixes.
      destruct (bool_decide_reflect
                  (Str.lower (PathLib.suffix (PathLib.of_str file_name))
                     ∈ supported_suffixes)) as [Hin|Hout].
      * split; auto.
      * split; [discriminate | intros [_ ?]; contradiction].
Qed.




(** C10: when no file of the walk is supported, [onboard_folder] returns
    after the walk and one message: it uploads no blob and sends nothing
    to the onboard-container endpoint. *)
Theorem onboard_folder_nothing_to_upload env cfg folder_name h0 :
  env_storage_client env h0 cfg = None →
  let walked := env_walk env (h0 ++ [EStorageClient; EPrint "Walking file system"])
                  folder_name in
  (∀ root dirs files file_name,
      (root, dirs, files) ∈ walked → file_name ∈ files →
      supported_file_type file_name = false) →
  onboard_folder env cfg folder_name h0
  = (Ok tt, h0 ++ [EStorageClient; EPrint "Walking file system";
                   EWalk folder_name;
                   EPrint "Could not find any valid files to upload"])
  ∧ remote_calls (snd (onboard_folder env cfg folder_name h0)) = remote_calls h0.
Proof.
  intros Hclient walked Hnone.
  assert (Hfiles : flat_map supported_in walked = []).
  { clear Hclient. induction walked as [|[[root dirs] files] w IH]; [done|].
    simpl. rewrite IH.
    2:{ intros r d fs f Hin. apply (Hnone r d fs f). by right. }
    rewrite app_nil_r.
    assert (Hf : ∀ f, f ∈ files → supported_file_type f = false).
    { intros f Hf. apply (Hnone root dirs files f); [by left | done]. }
    clear -Hf. induction files as [|f files IH]; [done|].
    rewrite filter_cons. rewrite (Hf f) by (by left).
    rewrite decide_False by discriminate.
    apply IH. intros g Hg. apply Hf. by right. }
  assert (Hrun := onboard_folder_walk env cfg folder_name h0 Hclient).
  cbv zeta in Hrun. fold walked in Hrun. rewrite Hfiles in Hrun.
  rewrite <- app_assoc in Hrun. simpl in Hrun.
  split; [exact Hrun|].
  rewrite Hrun. cbn [snd]. rewrite remote_calls_app. simpl. by rewrite app_nil_r.
Qed.

(** ** download: the bound and the request *)

Lemma download_bounds_cases (num_images : option Z) :
  let effective := match num_images with
                   | None => DEFAULT_NUM_IMAGES
                   | Some n => n
                   end in
  (effective <= 0 ∨ effective > 100) ∧ _download_bounds num_images = Raise ImageLimitException
  ∨ (0 < effective <= 100) ∧ _download_bounds num_images = Ok effective.
Proof.
  intros effective. unfold _download_bounds. fold effective.
  unfold LOWER_LIMIT, UPPER_LIMIT.
  destruct (effective <=? 0) eqn:E1; simpl.
  - left. split; [left; lia | reflexivity].
  - destruct (100 <? effective) eqn:E2.
    + left. split; [right; lia | reflexivity].
    + right. split; [lia | reflexivity].
Qed.

(** A call followed by pieces that only add to the log. *)
Lemma bind_call_extends {A B} (e : event) (answer : log → outcome A)
    (k : A → M B) (h : log) :
  (∀ a, extends (k a)) → ∃ post, snd (bind (call e answer) k h) = h ++ e :: post.
Proof.
  intros Hk. unfold bind, call.
  destruct (answer h) as [a|x].
  - destruct (Hk a (h ++ [e])) as [post E]. exists post.
    rewrite E. rewrite <- app_assoc. reflexivity.
  - exists []. reflexivity.
Qed.

(** [download] up to the answer of the images endpoint. *)
Lemma download_get_cases env lib cfg num_images url k h0 :
  cfg !! "url" = Some url →
  _download_bounds num_images = Ok k →
  let request := EGet (url +:+ "/api/images") (images_query cfg k) in
  match env_get env h0 (url +:+ "/api/images") (images_query cfg k) with
  | Raise e => download env lib cfg num_images h0 = (Raise e, h0 ++ [request])
  | Ok resp =>
      if is_http_error (status_code resp)
      then download env lib cfg num_images h0
           = (Raise (HTTPError (status_code resp)), h0 ++ [request])
      else ∃ post, snd (download env lib cfg num_images h0) = h0 ++ request :: post
  end.
Proof.
  intros Hurl Hk request.
  unfold download. rewrite Hurl, Hk.
  unfold str_add. rewrite bind_ret, bind_lift. unfold requests_get.
  destruct (env_get env h0 _ _) as [resp|e] eqn:Hget.
  - destruct (is_http_error (status_code resp)) eqn:Herr.
    + rewrite bind_call, Hget.
      unfold raise_for_status. rewrite Herr. reflexivity.
    + apply bind_call_extends.
      intros r. extends_tac.
  - rewrite bind_call, Hget. reflexivity.
Qed.

(** C2: the effective count is 40 when [num_images] is None;
    [_download_bounds] raises ImageLimitException exactly when the
    effective count is <= 0 or > 100 and otherwise returns it unchanged;
    [download] then sends it as the imageCount query parameter of its
    request to the images endpoint, and sends nothing when the bound is
    violated. *)
Theorem download_bounds_enforced (num_images : option Z) :
  let effective := match num_images with
                   | None => 40
                   | Some n => n
                   end in
  (_download_bounds None = Ok DEFAULT_NUM_IMAGES ∧ DEFAULT_NUM_IMAGES = 40)
  ∧ (_download_bounds num_images = Raise ImageLimitException
     ↔ effective <= 0 ∨ effective > 100)
  ∧ (¬ (effective <= 0 ∨ effective > 100) → _download_bounds num_images = Ok effective)
  ∧ ∀ env lib cfg url h0,
      cfg !! "url" = Some url →
      (effective <= 0 ∨ effective > 100 →
       download env lib cfg num_images h0 = (Raise ImageLimitException, h0))
      ∧ (¬ (effective <= 0 ∨ effective > 100) →
         ∃ post,
           snd (download env lib cfg num_images h0)
           = h0 ++ EGet (url +:+ "/api/images")
                        [("imageCount", VInt effective);
                         ("userName", opt_str (cfg !! "tagging_user"));
                         ("checkOut", VStr "true")] :: post).
Proof.
  intros effective.
  assert (Hcases := download_bounds_cases num_images).
  cbv zeta in Hcases. change DEFAULT_NUM_IMAGES with 40 in Hcases.
  fold effective in Hcases.
  split; [split; reflexivity|].
  split.
  { destruct Hcases as [[Hout Hr]|[Hin Hr]]; rewrite Hr.
    - split; auto.
    - split; [discriminate | lia]. }
  split.
  { destruct Hcases as [[Hout Hr]|[Hin Hr]]; [tauto | auto]. }
  intros env lib cfg url h0 Hurl. split.
  - intros Hout. destruct Hcases as [[_ Hr]|[Hin _]]; [|lia].
    unfold download. rewrite Hurl, Hr. reflexivity.
  - intros Hin. destruct Hcases as [[Hout _]|[_ Hr]]; [tauto|].
    assert (Hc := download_get_cases env lib cfg num_images url effective h0 Hurl Hr).
    cbv zeta in Hc. unfold images_query in Hc.
    destruct (env_get env h0 _ _) as [resp|e].
    + destruct (is_http_error (status_code resp)).
      * exists []. rewrite Hc. reflexivity.
      * exact Hc.
    + exists []. rewrite Hc. reflexivity.
Qed.

(** ** upload *)

(** The run of [upload] when data.json is there and decodes, by the answer
    to the request. *)
Lemma upload_run env lib cfg url location text json_data process_json h :
  cfg !! "url" = Some url →
  cfg !! "tagging_location" = Some location →
  let data_json :=
    PathLib.str (PathLib.join (PathLib.of_str (expanduser lib location)) "data.json") in
  let h1 := h ++ [EPrint "Uploading VOTT json file..."] in
  env_open env h1 data_json "r" = None →
  env_read env (h1 ++ [EOpen data_json "r"]) data_json = Ok text →
  json_loads lib text = Some json_data →
  process_vott_json lib json_data = Ok process_json →
  let h2 := h1 ++ [EOpen data_json "r"; ERead data_json; EClose data_json] in
  let query := [("userName", opt_str (cfg !! "tagging_user")); ("upload", VStr "true")] in
  let request := EPost (url +:+ "/api/labels") query process_json in
  upload env lib cfg h =
  match env_post env h2 (url +:+ "/api/labels") query process_json with
  | Raise e => (Raise e, h2 ++ [request])
  | Ok resp =>
      if is_http_error (status_code resp)
      then (Raise (HTTPError (status_code resp)), h2 ++ [request])
      else match json_body resp with
           | Some _ => (Ok tt, h2 ++ [request; EPrint "Done!"])
           | None => (Raise JSONDecodeError, h2 ++ [request])
           end
  end.
Proof.
  intros Hurl Hloc data_json h1 Hopen Hread Hloads Hproc h2 query request.
  unfold upload. rewrite Hurl, Hloc.
  unfold str_add. rewrite bind_ret.
  rewrite bind_lift, bind_print. fold data_json. fold h1.
  unfold bind at 1. rewrite with_open_run, Hopen.
  unfold file_read. rewrite bind_call, Hread, Hloads. unfold lift at 1.
  rewrite bind_lift, Hproc.
  rewrite <- !app_assoc. cbn [app]. fold h2.
  unfold requests_post. rewrite bind_call. fold query.
  destruct (env_post env h2 _ _ _) as [resp|e]; [|reflexivity].
  unfold raise_for_status.
  destruct (is_http_error (status_code resp)); [reflexivity|].
  rewrite bind_ret. unfold response_json.
  destruct (json_body resp); [|reflexivity].
  rewrite bind_ret. rewrite print_run. rewrite <- app_assoc. reflexivity.
Qed.

(** [raise_for_status] raises exactly for the statuses from 400 to 599. *)
Lemma raise_for_status_spec (resp : Response) (h : log) :
  raise_for_status resp h =
  if bool_decide (400 <= status_code resp < 600)
  then (Raise (HTTPError (status_code resp)), h)
  else (Ok tt, h).
Proof.
  unfold raise_for_status, is_http_error.
  case_bool_decide as Hs.
  - assert (E : ((400 <=? status_code resp) && (status_code resp <? 600))%bool = true).
    { apply andb_true_intro. split; [apply Z.leb_le | apply Z.ltb_lt]; lia. }
    rewrite E. reflexivity.
  - assert (E : ((400 <=? status_code resp) && (status_code resp <? 600))%bool = false).
    { apply andb_false_iff.
      destruct (Z.leb_spec 400 (status_code resp)); [right|left; reflexivity].
      apply Z.ltb_ge. lia. }
    rewrite E. reflexivity.
Qed.

Lemma is_http_error_true (status : Z) :
  400 <= status < 600 → is_http_error status = true.
Proof.
  intros Hs. unfold is_http_error.
  apply andb_true_intro. split; [apply Z.leb_le | apply Z.ltb_lt]; lia.
Qed.

(** C4: each of the three calls to the labeling service propagates an HTTP
    error.  When the answer carries an error status (4xx or 5xx, the
    statuses for which requests raises), the flow ends with HTTPError and
    the request is the last entry of its log: nothing of the flow runs
    after it and the request is not sent again. *)
Theorem http_errors_propagate env lib cfg url :
  cfg !! "url" = Some url →
  (∀ account key container h resp,
      let h1 := h ++ [EPrint "onboarding from storage container";
                      EPrint ("Onboarding storage container " +:+ container
                              +:+ " into dataset")] in
      let query := [("userName", opt_str (cfg !! "tagging_user"))] in
      let data := JObj [("storageAccount", opt_json account);
                        ("storageAccountKey", opt_json key);
                        ("storageContainer", JStr container)] in
      env_post env h1 (url +:+ "/api/onboardcontainer") query data = Ok resp →
      400 <= status_code resp < 600 →
      onboard_container env cfg account key (Some container) h
      = (Raise (HTTPError (status_code resp)),
         h1 ++ [EPost (url +:+ "/api/onboardcontainer") query data]))
  ∧ (∀ num_images k h resp,
      _download_bounds num_images = Ok k →
      env_get env h (url +:+ "/api/images") (images_query cfg k) = Ok resp →
      400 <= status_code resp < 600 →
      download env lib cfg num_images h
      = (Raise (HTTPError (status_code resp)),
         h ++ [EGet (url +:+ "/api/images") (images_query cfg k)]))
  ∧ (∀ location text json_data process_json h resp,
      cfg !! "tagging_location" = Some location →
      let data_json :=
        PathLib.str (PathLib.join (PathLib.of_str (expanduser lib location))
                                  "data.json") in
      let h1 := h ++ [EPrint "Uploading VOTT json file..."] in
      env_open env h1 data_json "r" = None →
      env_read env (h1 ++ [EOpen data_json "r"]) data_json = Ok text →
      json_loads lib text = Some json_data →
      process_vott_json lib json_data = Ok process_json →
      let h2 := h1 ++ [EOpen data_json "r"; ERead data_json; EClose data_json] in
      let query := [("userName", opt_str (cfg !! "tagging_user"));
                    ("upload", VStr "true")] in
      env_post env h2 (url +:+ "/api/labels") query process_json = Ok resp →
      400 <= status_code resp < 600 →
      upload env lib cfg h
      = (Raise (HTTPError (status_code resp)),
         h2 ++ [EPost (url +:+ "/api/labels") query process_json])).
Proof.
  intros Hurl. split; [|split].
  - intros account key container h resp h1 query data Hpost Hstatus.
    rewrite (onboard_container_run env cfg account key url container h Hurl).
    cbv zeta. fold h1 query data. rewrite Hpost.
    rewrite (is_http_error_true _ Hstatus). reflexivity.
  - intros num_images k h resp Hk Hget Hstatus.
    assert (Hc := download_get_cases env lib cfg num_images url k h Hurl Hk).
    cbv zeta in Hc. rewrite Hget in Hc.
    rewrite (is_http_error_true _ Hstatus) in Hc. exact Hc.
  - intros location text json_data process_json h resp Hloc data_json h1
      Hopen Hread Hloads Hproc h2 query Hpost Hstatus.
    rewrite (upload_run env lib cfg url location text json_data process_json h
               Hurl Hloc Hopen Hread Hloads Hproc).
    cbv zeta. fold data_json h1 h2 query. rewrite Hpost.
    rewrite (is_http_error_true _ Hstatus). reflexivity.
Qed.

(** C6: [upload] reads data.json in the tagging location, decodes it,
    transforms it with [process_vott_json] and posts the result to the
    labels endpoint with the user name and upload=true as query
    parameters; that request is the only call it makes to the service. *)
Theorem upload_posts_processed_labels env lib cfg url location text
    json_data process_json h :
  cfg !! "url" = Some url →
  cfg !! "tagging_location" = Some location →
  let tagging_location := PathLib.of_str (expanduser lib location) in
  let data_json := PathLib.str (PathLib.join tagging_location "data.json") in
  let h1 := h ++ [EPrint "Uploading VOTT json file..."] in
  env_open env h1 data_json "r" = None →
  env_read env (h1 ++ [EOpen data_json "r"]) data_json = Ok text →
  json_loads lib text = Some json_data →
  process_vott_json lib json_data = Ok process_json →
  let request := EPost (url +:+ "/api/labels")
                       [("userName", opt_str (cfg !! "tagging_user"));
                        ("upload", VStr "true")]
                       process_json in
  (∃ post,
      snd (upload env lib cfg h)
      = h ++ [EPrint "Uploading VOTT json file...";
              EOpen data_json "r"; ERead data_json; EClose data_json;
              request] ++ post
      ∧ remote_calls post = [] ∧ fs_changes post = [])
  ∧ remote_calls (snd (upload env lib cfg h)) = remote_calls h ++ [request]
  ∧ PathLib.join tagging_location "data.json"
    = mkPath (p_root tagging_location) (p_parts tagging_location ++ ["data.json"]).
Proof.
  intros Hurl Hloc tagging_location data_json h1 Hopen Hread Hloads Hproc request.
  assert (Hrun := upload_run env lib cfg url location text json_data process_json h
                    Hurl Hloc Hopen Hread Hloads Hproc).
  cbv zeta in Hrun. fold tagging_location data_json h1 request in Hrun.
  assert (Hcases :
    ∃ post, snd (upload env lib cfg h)
            = h ++ [EPrint "Uploading VOTT json file...";
                    EOpen data_json "r"; ERead data_json; EClose data_json;
                    request] ++ post
            ∧ remote_calls post = [] ∧ fs_changes post = []).
  { rewrite Hrun. unfold h1.
    destruct (env_post env _ _ _ _) as [resp|e];
      [destruct (is_http_error (status_code resp));
         [|destruct (json_body resp)]|];
      cbn [snd]; rewrite <- !app_assoc; cbn [app];
      first [ by (exists [EPrint "Done!"]) | by (exists []) ]. }
  split; [exact Hcases|]. split.
  - destruct Hcases as (post & -> & Hremote & _).
    rewrite !remote_calls_app. cbn. rewrite Hremote. reflexivity.
  - unfold PathLib.join, PathLib.join_path. reflexivity.
Qed.

(** ** download: the batch and the tagging directory *)

Lemma download_received env lib cfg num_images h0 url k json_resp images_json items :
  images_endpoint_returns env lib cfg num_images h0 url k json_resp images_json items →
  download env lib cfg num_images h0 =
  (if Nat.eqb (List.length items) 0
   then print "No images could be retrieved with the current retrieval strategy!"
   else download_batch env lib cfg json_resp images_json)
    (h0 ++ received_log cfg url k (List.length items)).
Proof.
  intros (Hurl & Hk & resp & s & Hget & Hstatus & Hbody & Himages & Hloads & Hiter).
  unfold download. rewrite Hurl, Hk.
  unfold str_add. rewrite bind_ret, bind_lift.
  unfold requests_get. rewrite bind_call, Hget.
  unfold raise_for_status. rewrite Hstatus, bind_ret.
  unfold response_json. rewrite Hbody, bind_ret.
  rewrite bind_lift, Himages, bind_lift, Hloads.
  unfold py_len. rewrite Hiter, bind_lift, bind_print.
  rewrite <- app_assoc. reflexivity.
Qed.

(** Whatever the world answers, [download] leaves the local files alone
    unless the images endpoint returned a non-empty batch. *)
Lemma download_fs_untouched_or_batch env lib cfg num_images h0 :
  fs_changes (snd (download env lib cfg num_images h0)) = fs_changes h0
  ∨ ∃ url k json_resp images_json items,
      images_endpoint_returns env lib cfg num_images h0 url k json_resp images_json items
      ∧ items ≠ [].
Proof.
  unfold download.
  destruct (cfg !! "url") as [url|] eqn:Hurl; [|left; reflexivity].
  unfold str_add. rewrite bind_ret, bind_lift.
  destruct (_download_bounds num_images) as [k|e] eqn:Hk; [|left; reflexivity].
  unfold requests_get. rewrite bind_call.
  destruct (env_get env h0 _ _) as [resp|e] eqn:Hget.
  2:{ left. cbn [snd]. rewrite fs_changes_app. cbn. by rewrite app_nil_r. }
  unfold raise_for_status.
  destruct (is_http_error (status_code resp)) eqn:Hstatus.
  { left. cbn. rewrite fs_changes_app. cbn. by rewrite app_nil_r. }
  rewrite bind_ret. unfold response_json.
  destruct (json_body resp) as [json_resp|] eqn:Hbody.
  2:{ left. cbn. rewrite fs_changes_app. cbn. by rewrite app_nil_r. }
  rewrite bind_ret, bind_lift.
  destruct (subscript json_resp "images") as [images|e] eqn:Himages.
  2:{ left. cbn. rewrite fs_changes_app. cbn. by rewrite app_nil_r. }
  rewrite bind_lift.
  assert (Hbad : ∀ e : exn,
    fs_changes (snd (@Raise unit e, h0 ++ [EGet (url +:+ "/api/images") (images_query cfg k)]))
    = fs_changes h0).
  { intros e. cbn [snd]. rewrite fs_changes_app. cbn. by rewrite app_nil_r. }
  destruct images as [| | |s| |]; try (left; apply Hbad).
  destruct (json_loads lib s) as [images_json|] eqn:Hloads; [|left; apply Hbad].
  rewrite bind_lift. unfold py_len.
  destruct (py_iter images_json) as [items|e] eqn:Hiter; [|left; apply Hbad].
  rewrite bind_print.
  destruct items as [|item items].
  - left. cbn. rewrite !fs_changes_app. cbn. by rewrite !app_nil_r.
  - right. exists url, k, json_resp, images_json, (item :: items).
    split; [|discriminate].
    split; [done|]. split; [done|]. exists resp, s. done.
Qed.

(** [download_batch] up to the creation of the data directory. *)
Lemma download_batch_start env lib cfg json_resp images_json location h :
  cfg !! "tagging_location" = Some location →
  let file_tree := PathLib.of_str (expanduser lib location) in
  ∃ post,
    snd (download_batch env lib cfg json_resp images_json h)
    = h ++ EExists file_tree ::
        (if env_exists env h file_tree
         then [EPrint ("Removing existing tag data directory: "
                       +:+ PathLib.str file_tree);
               ERmtree (PathLib.str file_tree)]
         else []) ++
        EMkdir (PathLib.join file_tree "data") :: post.
Proof.
  intros Hloc file_tree.
  unfold download_batch. rewrite Hloc, bind_lift. fold file_tree.
  unfold path_exists. rewrite bind_call.
  destruct (env_exists env h file_tree).
  - unfold bind at 1. rewrite bind_print. unfold rmtree, call. cbn beta iota.
    unfold mkdir.
    match goal with
    | |- context [bind (call ?e ?a) ?k ?h'] =>
        destruct (bind_call_extends e a k h') as [post E]; [intros _; extends_tac|]
    end.
    exists post. rewrite E. rewrite <- !app_assoc. reflexivity.
  - rewrite bind_ret. unfold mkdir.
    match goal with
    | |- context [bind (call ?e ?a) ?k ?h'] =>
        destruct (bind_call_extends e a k h') as [post E]; [intros _; extends_tac|]
    end.
    exists post. rewrite E. rewrite <- !app_assoc. reflexivity.
Qed.

(** C9: [download] changes the local files only when the images endpoint
    returned at least one image.  With an empty batch it returns after two
    messages and the file system is as before; with a non-empty batch it
    asks whether the tagging location exists and, if so, removes that
    tree before it creates the data directory. *)
Theorem download_removes_tree_only_for_batch env lib cfg num_images h0 :
  (fs_changes (snd (download env lib cfg num_images h0)) ≠ fs_changes h0 →
   ∃ url k json_resp images_json items,
     images_endpoint_returns env lib cfg num_images h0 url k json_resp images_json items
     ∧ items ≠ [])
  ∧ (∀ url k json_resp images_json,
       images_endpoint_returns env lib cfg num_images h0 url k json_resp images_json [] →
       download env lib cfg num_images h0
       = (Ok tt,
          h0 ++ [EGet (url +:+ "/api/images") (images_query cfg k);
                 EPrint "Received 0 files.";
                 EPrint "No images could be retrieved with the current retrieval strategy!"])
       ∧ fs_changes (snd (download env lib cfg num_images h0)) = fs_changes h0)
  ∧ (∀ url k json_resp images_json items location,
       images_endpoint_returns env lib cfg num_images h0 url k json_resp images_json items →
       items ≠ [] →
       cfg !! "tagging_location" = Some location →
       let file_tree := PathLib.of_str (expanduser lib location) in
       let h1 := h0 ++ received_log cfg url k (List.length items) in
       ∃ post,
         snd (download env lib cfg num_images h0)
         = h1 ++ EExists file_tree ::
             (if env_exists env h1 file_tree
              then [EPrint ("Removing existing tag data directory: "
                            +:+ PathLib.str file_tree);
                    ERmtree (PathLib.str file_tree)]
              else []) ++
             EMkdir (PathLib.join file_tree "data") :: post).
Proof.
  split; [|split].
  - intros Hchanged.
    destruct (download_fs_untouched_or_batch env lib cfg num_images h0) as [Hsame|Hbatch];
      [contradiction | exact Hbatch].
  - intros url k json_resp images_json Hret.
    rewrite (download_received _ _ _ _ _ _ _ _ _ _ Hret).
    cbn [List.length Nat.eqb]. rewrite print_run. unfold received_log.
    rewrite <- app_assoc. cbn [app]. split; [reflexivity|].
    cbn [snd]. rewrite fs_changes_app. cbn. by rewrite app_nil_r.
  - intros url k json_resp images_json items location Hret Hne Hloc file_tree h1.
    rewrite (download_received _ _ _ _ _ _ _ _ _ _ Hret).
    destruct items as [|item items]; [congruence|].
    cbn [List.length Nat.eqb]. fold h1.
    apply (download_batch_start env lib cfg json_resp images_json location h1 Hloc).
Qed.

(** ** download: the files written *)

Lemma opened_app t1 t2 : opened (t1 ++ t2) = opened t1 ++ opened t2.
Proof. apply flat_map_app. Qed.

Lemma write_loop_run env {A} (p : string) (f : A → string) (l : list A) (h : log) :
  (∀ h p data, env_write env h p data = None) →
  for_each l (fun x => file_write env p (f x)) h
  = (Ok tt, h ++ map (fun x => EWrite p (f x)) l).
Proof.
  intros Hw. revert h. induction l as [|x l IH]; intros h; simpl.
  - unfold ret. by rewrite app_nil_r.
  - unfold file_write at 1. rewrite bind_call, Hw. cbn [of_option].
    rewrite IH. rewrite <- app_assoc. reflexivity.
Qed.

Lemma write_vott_data_run env lib image_dir vott_json image_urls h :
  truthy vott_json = true →
  files_writable env →
  write_vott_data env lib image_dir
    (JObj [("vott_json", vott_json); ("imageUrls", image_urls)]) h
  = (Ok tt, h ++ vott_events lib image_dir vott_json).
Proof.
  intros Htruthy [Hopen Hwrite].
  unfold write_vott_data. rewrite bind_lift.
  change (dict_get "vott_json" [("vott_json", vott_json); ("imageUrls", image_urls)])
    with (Some vott_json).
  cbn [default from_option]. unfold id. rewrite Htruthy. cbn [negb].
  rewrite with_open_run, Hopen.
  rewrite (write_loop_run env _ (fun c => String c EmptyString) _ _ Hwrite).
  unfold vott_events. rewrite <- !app_assoc. reflexivity.
Qed.

Lemma download_image_run env lib image_dir u r h :
  files_writable env →
  env_get env h u [] = Ok r →
  download_image env lib image_dir (JStr u) h
  = (Ok (PathLib.join image_dir (url_name lib u)),
     h ++ image_events lib image_dir u r).
Proof.
  intros [Hopen Hwrite] Hget.
  unfold download_image, as_url. rewrite bind_ret.
  unfold requests_get. rewrite bind_call, Hget.
  unfold bind at 1. rewrite with_open_run, Hopen.
  rewrite (write_loop_run env _ (fun chunk => chunk) _ _ Hwrite).
  unfold ret, image_events. rewrite <- !app_assoc. reflexivity.
Qed.

Lemma download_loop_run env lib image_dir urls h :
  files_writable env →
  images_served env urls →
  ∃ blocks,
    map_M (download_image env lib image_dir) (map JStr urls) h
    = (Ok (map (fun u => PathLib.join image_dir (url_name lib u)) urls),
       h ++ concat blocks)
    ∧ Forall2 (fun u block =>
                 ∃ h' r, env_get env h' u [] = Ok r
                         ∧ block = image_events lib image_dir u r)
              urls blocks.
Proof.
  intros Hfs. revert h. induction urls as [|u urls IH]; intros h Hserved.
  - exists []. simpl. unfold ret. rewrite app_nil_r. split; [reflexivity | constructor].
  - destruct (Hserved h u) as [r Hget]; [by left|].
    destruct (IH (h ++ image_events lib image_dir u r)) as (blocks & Hrun & Hblocks).
    { intros h' u' Hin. apply Hserved. by right. }
    exists (image_events lib image_dir u r :: blocks). split.
    + cbn [map map_M]. unfold bind at 1.
      rewrite (download_image_run env lib image_dir u r h Hfs Hget).
      unfold bind at 1. rewrite Hrun. unfold ret. cbn [concat].
      rewrite <- app_assoc. reflexivity.
    + constructor; [|exact Hblocks]. exists h, r. done.
Qed.

Lemma opened_image_blocks env lib image_dir urls blocks :
  Forall2 (fun u block =>
             ∃ h' r, env_get env h' u [] = Ok r
                     ∧ block = image_events lib image_dir u r)
          urls blocks →
  opened (concat blocks)
  = map (fun u => (PathLib.str (PathLib.join image_dir (url_name lib u)), "wb")) urls
  ∧ remote_calls (concat blocks) = map (fun u => EGet u []) urls.
Proof.
  induction 1 as [|u block urls blocks (h' & r & _ & ->) _ [IH1 IH2]]; [done|].
  cbn [concat map]. rewrite opened_app, remote_calls_app, IH1, IH2.
  unfold image_events.
  assert (Hw : ∀ p l, opened (map (EWrite p) l) = [] ∧ remote_calls (map (EWrite p) l) = []).
  { intros p l. induction l as [|x l [I1 I2]]; [done|]. simpl. by rewrite I1. }
  split.
  - rewrite !opened_app. rewrite (proj1 (Hw _ _)). reflexivity.
  - rewrite !remote_calls_app. rewrite (proj2 (Hw _ _)). reflexivity.
Qed.

Lemma opened_vott_events lib image_dir vott_json :
  opened (vott_events lib image_dir vott_json)
  = [(PathLib.str (PathLib.join image_dir "../data.json"), "w")]
  ∧ remote_calls (vott_events lib image_dir vott_json) = [].
Proof.
  unfold vott_events.
  generalize (PathLib.str (PathLib.join image_dir "../data.json")) as p.
  intros p. generalize (String.list_ascii_of_string (json_dumps lib vott_json)) as l.
  intros l.
  assert (Hw : opened (map (fun c => EWrite p (String c EmptyString)) l ++ [EClose p]) = []
               ∧ remote_calls (map (fun c => EWrite p (String c EmptyString)) l
                               ++ [EClose p]) = []).
  { induction l as [|x l [I1 I2]]; [done|]. simpl. by rewrite I1. }
  destruct Hw as [Ho Hr]. split.
  - change (opened (EOpen p "w" :: ?t)) with ((p, "w") :: opened t).
    cbv zeta. rewrite Ho. reflexivity.
  - change (remote_calls (EOpen p "w" :: ?t)) with (remote_calls t).
    cbv zeta. exact Hr.
Qed.

(** *** Where the files are *)

Lemma join_data_json (image_dir : Path) :
  PathLib.join image_dir "../data.json"
  = mkPath (p_root image_dir) (p_parts image_dir ++ [".."; "data.json"]).
Proof. reflexivity. Qed.

Lemma join_data (file_tree : Path) :
  PathLib.join file_tree "data"
  = mkPath (p_root file_tree) (p_parts file_tree ++ ["data"]).
Proof. reflexivity. Qed.

Lemma split_no_slash (s : string) :
  has_slash s = false → Str.split "/" s = [s].
Proof.
  induction s as [|c s IH]; [reflexivity|].
  simpl. destruct (Ascii.eqb c "/"); [discriminate|].
  simpl. intros H. rewrite (IH H). reflexivity.
Qed.

Lemma of_str_plain (s : string) :
  plain_component s = true → PathLib.of_str s = mkPath "" [s].
Proof.
  unfold plain_component. intros H. apply andb_prop in H as [Hslash Hcomp].
  apply negb_true_iff in Hslash.
  unfold PathLib.of_str.
  assert (Hroot : PathLib.splitroot s = ("", s)).
  { destruct s as [|c s]; [reflexivity|].
    simpl in Hslash. apply orb_false_elim in Hslash as [Hc _].
    unfold PathLib.splitroot.
    destruct c as [[] [] [] [] [] [] [] []]; try reflexivity; discriminate. }
  rewrite Hroot. rewrite (split_no_slash s Hslash).
  simpl. rewrite Hcomp. reflexivity.
Qed.

Lemma join_plain (dir : Path) (name : string) :
  plain_component name = true →
  PathLib.join dir name = mkPath (p_root dir) (p_parts dir ++ [name])
  ∧ PathLib.name (PathLib.join dir name) = name
  ∧ PathLib.parent (PathLib.join dir name) = dir.
Proof.
  intros H. unfold PathLib.join. rewrite (of_str_plain name H).
  unfold PathLib.join_path. cbn [p_root p_parts]. cbn [String.eqb].
  split; [reflexivity|]. split.
  - unfold PathLib.name. cbn [p_parts]. apply last_last.
  - unfold PathLib.parent. cbn [p_root p_parts]. rewrite removelast_last.
    destruct dir; reflexivity.
Qed.

Lemma normpath_step_name rooted stack (comp : string) :
  PathLib.is_component comp = true → String.eqb comp ".." = false →
  normpath_step rooted stack comp = stack ++ [comp].
Proof.
  unfold PathLib.is_component, normpath_step. intros Hc Hd.
  apply negb_true_iff in Hc. rewrite Hc, Hd. reflexivity.
Qed.

Lemma normpath_step_up rooted stack (comp : string) :
  String.eqb comp ".." = false →
  normpath_step rooted (stack ++ [comp]) ".." = stack.
Proof.
  intros Hd. unfold normpath_step. cbn [String.eqb Ascii.eqb Bool.eqb orb negb].
  rewrite last_last, Hd, length_app. cbn [List.length].
  replace (List.length stack + 1)%nat with (S (List.length stack)) by lia.
  cbn [Nat.eqb]. rewrite andb_false_r. cbn [orb].
  apply removelast_last.
Qed.

(** data.json lies in the tagging location, next to the data directory. *)
Lemma data_json_alongside (file_tree : Path) :
  let data_dir := PathLib.join file_tree "data" in
  normpath data_dir = normpath file_tree ++ ["data"]
  ∧ normpath (PathLib.join data_dir "../data.json") = normpath file_tree ++ ["data.json"].
Proof.
  intros data_dir. unfold data_dir.
  rewrite join_data_json, join_data. unfold normpath. cbn [p_root p_parts].
  rewrite <- !app_assoc. rewrite !fold_left_app. cbn [fold_left app].
  set (rooted := negb (String.eqb (p_root file_tree) "")).
  set (stack := fold_left (normpath_step rooted) (p_parts file_tree) []).
  rewrite (normpath_step_name rooted stack "data") by reflexivity.
  split; [reflexivity|].
  rewrite (normpath_step_up rooted stack "data") by reflexivity.
  apply normpath_step_name; reflexivity.
Qed.

(** The slices written for an image make up the body of the response. *)
Lemma take_drop (n : nat) (s : string) : take n s +:+ Str.drop n s = s.
Proof.
  revert s. induction n as [|n IH]; intros s; [reflexivity|].
  destruct s as [|c s]; [reflexivity|]. simpl. unfold String.app in *.
  simpl. by rewrite IH.
Qed.

Lemma drop_length (n : nat) (s : string) :
  String.length (Str.drop n s) = (String.length s - n)%nat.
Proof.
  revert s. induction n as [|n IH]; intros s; simpl; [lia|].
  destruct s as [|c s]; [reflexivity|]. simpl. apply IH.
Qed.

Lemma iter_slices_concat (s : string) (n : nat) :
  (0 < n)%nat → fold_right String.append EmptyString (iter_slices s n) = s.
Proof.
  intros Hn. unfold iter_slices.
  assert (H : ∀ fuel t, (String.length t <= fuel)%nat →
            fold_right String.append EmptyString (iter_slices_fuel fuel n t) = t).
  { induction fuel as [|fuel IH]; intros t Hlen.
    - destruct t; [reflexivity | simpl in Hlen; lia].
    - destruct t as [|c t]; [reflexivity|].
      cbn [iter_slices_fuel fold_right]. rewrite IH.
      + apply take_drop.
      + rewrite drop_length. simpl in *. lia. }
  apply H. lia.
Qed.

(** *** The runs of download_images and of a whole download *)

Lemma download_images_run env lib cfg image_dir vott_json urls h :
  files_writable env →
  truthy vott_json = true →
  images_served env urls →
  ∃ blocks,
    download_images env lib cfg image_dir
      (JObj [("vott_json", vott_json); ("imageUrls", JArr (map JStr urls))]) h
    = (Ok (map (fun u => PathLib.join image_dir (url_name lib u)) urls),
       h ++ EPrint ("Downloading files to " +:+ PathLib.str image_dir)
         :: vott_events lib image_dir vott_json ++ concat blocks)
    ∧ Forall2 (fun u block =>
                 ∃ h' r, env_get env h' u [] = Ok r
                         ∧ block = image_events lib image_dir u r)
              urls blocks.
Proof.
  intros Hfs Htruthy Hserved.
  unfold download_images. rewrite bind_print.
  unfold bind at 1. rewrite (write_vott_data_run env lib image_dir _ _ _ Htruthy Hfs).
  rewrite bind_lift.
  change (subscript (JObj [("vott_json", vott_json); ("imageUrls", JArr (map JStr urls))])
                    "imageUrls")
    with (Ok (JArr (map JStr urls))).
  cbn iota. rewrite bind_lift. cbn [py_iter].
  destruct (download_loop_run env lib image_dir urls
              ((h ++ [EPrint ("Downloading files to " +:+ PathLib.str image_dir)])
               ++ vott_events lib image_dir vott_json) Hfs Hserved)
    as (blocks & Hrun & Hblocks).
  exists blocks. split; [|exact Hblocks].
  rewrite Hrun. rewrite <- !app_assoc. reflexivity.
Qed.

Lemma labels_run lib (items : list json) (labels : list (ImageLabel lib)) (h : log) :
  Forall2 (fun item label => ImageLabel_fromJson lib item = Ok label) items labels →
  map_M (fun item => lift (ImageLabel_fromJson lib item)) items h = (Ok labels, h).
Proof.
  induction 1 as [|item label items labels Hitem _ IH]; [reflexivity|].
  cbn [map_M]. rewrite bind_lift, Hitem. unfold bind at 1. rewrite IH. reflexivity.
Qed.

Lemma print_loop_run (paths : list Path) (h : log) :
  for_each paths (fun image_path => print (PathLib.str image_path)) h
  = (Ok tt, h ++ map (fun p => EPrint (PathLib.str p)) paths).
Proof.
  revert h. induction paths as [|p paths IH]; intros h; simpl.
  - unfold ret. by rewrite app_nil_r.
  - rewrite bind_print, IH. rewrite <- app_assoc. reflexivity.
Qed.

Lemma opened_prints {A} (f : A → string) (l : list A) :
  opened (map (fun x => EPrint (f x)) l) = [].
Proof. induction l; [done|]. simpl. done. Qed.

Lemma opened_cons (e : event) (t : log) :
  opened (e :: t)
  = match e with EOpen p mode => [(p, mode)] | _ => [] end ++ opened t.
Proof. reflexivity. Qed.

(** A whole [download_batch] when every step succeeds. *)
Lemma download_batch_run env lib cfg json_resp images_json items location labels
    classification_list vott_json urls h :
  cfg !! "tagging_location" = Some location →
  (∀ h p, env_mkdir env h p = None) →
  py_iter images_json = Ok items →
  Forall2 (fun item label => ImageLabel_fromJson lib item = Ok label) items labels →
  subscript json_resp "classification_list" = Ok classification_list →
  create_vott_json_from_image_labels lib labels classification_list
    = Ok (vott_json, JArr (map JStr urls)) →
  files_writable env →
  truthy vott_json = true →
  images_served env urls →
  let file_tree := PathLib.of_str (expanduser lib location) in
  let data_dir := PathLib.join file_tree "data" in
  ∃ blocks,
    download_batch env lib cfg json_resp images_json h
    = (Ok tt,
       h ++ EExists file_tree ::
         (if env_exists env h file_tree
          then [EPrint ("Removing existing tag data directory: "
                        +:+ PathLib.str file_tree);
                ERmtree (PathLib.str file_tree)]
          else []) ++
         EMkdir data_dir ::
         EPrint ("Downloading files to " +:+ PathLib.str data_dir) ::
         vott_events lib data_dir vott_json ++ concat blocks ++
         EPrint ("Successfully downloaded " +:+ Str.of_nat (List.length urls)
                 +:+ " images.") ::
         map (fun u => EPrint (PathLib.str (PathLib.join data_dir (url_name lib u)))) urls
         ++ [EPrint "Ready to tag!"])
    ∧ Forall2 (fun u block =>
                 ∃ h' r, env_get env h' u [] = Ok r
                         ∧ block = image_events lib data_dir u r)
              urls blocks.
Proof.
  intros Hloc Hmkdir Hiter Hlabels Hclass Hcreate Hfs Htruthy Hserved file_tree data_dir.
  unfold download_batch. rewrite Hloc, bind_lift. fold file_tree. fold data_dir.
  unfold path_exists. rewrite bind_call.
  set (removal := if env_exists env h file_tree
                  then [EPrint ("Removing existing tag data directory: "
                                +:+ PathLib.str file_tree);
                        ERmtree (PathLib.str file_tree)]
                  else []).
  set (h1 := h ++ EExists file_tree :: removal).
  assert (Hstep : ∀ {B} (k : unit → M B),
    bind (if env_exists env h file_tree
          then print ("Removing existing tag data directory: "
                      +:+ PathLib.str file_tree) ;;
               rmtree (PathLib.str file_tree)
          else ret tt) k (h ++ [EExists file_tree]) = k tt h1).
  { intros B k. unfold h1, removal. destruct (env_exists env h file_tree).
    - unfold bind at 1. rewrite bind_print. unfold rmtree, call. cbn beta iota.
      rewrite <- !app_assoc. reflexivity.
    - rewrite bind_ret. reflexivity. }
  rewrite Hstep. clear Hstep.
  unfold mkdir. rewrite bind_call, Hmkdir. cbn [of_option].
  rewrite bind_lift, Hiter.
  unfold bind at 1. rewrite (labels_run lib items labels _ Hlabels).
  rewrite bind_lift, Hclass, bind_lift, Hcreate.
  destruct (download_images_run env lib cfg data_dir vott_json urls
              (h1 ++ [EMkdir data_dir]) Hfs Htruthy Hserved)
    as (blocks & Hrun & Hblocks).
  exists blocks. split; [|exact Hblocks].
  unfold bind at 1. rewrite Hrun. rewrite bind_print.
  unfold bind at 1. rewrite print_loop_run. rewrite print_run.
  rewrite length_map, map_map.
  unfold h1. rewrite <- !app_assoc. cbn [app]. rewrite <- !app_assoc. reflexivity.
Qed.

(** C5: with a local file system that takes every write, and image
    requests that are answered, [download_images] writes the labeling-tool
    document to data.json one level above the image directory, then
    fetches each URL of the list into one file of the image directory
    named by the last component of the URL, and returns these paths in the
    order of the URLs.  In a [download] whose images endpoint returned a
    non-empty batch, the image directory is the data directory of the
    tagging location, so data.json lies in the tagging location next to
    it. *)
Theorem download_materializes_batch env lib cfg :
  files_writable env →
  (∀ image_dir vott_json urls h,
      truthy vott_json = true →
      images_served env urls →
      ∃ blocks,
        download_images env lib cfg image_dir
          (JObj [("vott_json", vott_json); ("imageUrls", JArr (map JStr urls))]) h
        = (Ok (map (fun u => PathLib.join image_dir (url_name lib u)) urls),
           h ++ EPrint ("Downloading files to " +:+ PathLib.str image_dir)
             :: vott_events lib image_dir vott_json ++ concat blocks)
        ∧ Forall2 (fun u block =>
                     ∃ h' r, env_get env h' u [] = Ok r
                             ∧ block = image_events lib image_dir u r)
                  urls blocks
        ∧ PathLib.join image_dir "../data.json"
          = mkPath (p_root image_dir) (p_parts image_dir ++ [".."; "data.json"])
        ∧ ∀ u, plain_component (url_name lib u) = true →
               PathLib.name (PathLib.join image_dir (url_name lib u)) = url_name lib u
               ∧ PathLib.parent (PathLib.join image_dir (url_name lib u)) = image_dir)
  ∧ (∀ num_images h0 url k json_resp images_json items location labels
       classification_list vott_json urls,
      images_endpoint_returns env lib cfg num_images h0 url k json_resp images_json items →
      items ≠ [] →
      cfg !! "tagging_location" = Some location →
      (∀ h p, env_mkdir env h p = None) →
      Forall2 (fun item label => ImageLabel_fromJson lib item = Ok label) items labels →
      subscript json_resp "classification_list" = Ok classification_list →
      create_vott_json_from_image_labels lib labels classification_list
        = Ok (vott_json, JArr (map JStr urls)) →
      truthy vott_json = true →
      images_served env urls →
      let file_tree := PathLib.of_str (expanduser lib location) in
      let data_dir := PathLib.join file_tree "data" in
      fst (download env lib cfg num_images h0) = Ok tt
      ∧ opened (snd (download env lib cfg num_images h0))
        = opened h0
          ++ (PathLib.str (PathLib.join data_dir "../data.json"), "w")
          :: map (fun u => (PathLib.str (PathLib.join data_dir (url_name lib u)), "wb"))
                 urls
      ∧ normpath data_dir = normpath file_tree ++ ["data"]
      ∧ normpath (PathLib.join data_dir "../data.json")
        = normpath file_tree ++ ["data.json"]).
Proof.
  intros Hfs. split.
  - intros image_dir vott_json urls h Htruthy Hserved.
    destruct (download_images_run env lib cfg image_dir vott_json urls h
                Hfs Htruthy Hserved) as (blocks & Hrun & Hblocks).
    exists blocks. split; [exact Hrun|]. split; [exact Hblocks|].
    split; [apply join_data_json|].
    intros u Hplain. apply (join_plain image_dir _ Hplain).
  - intros num_images h0 url k json_resp images_json items location labels
      classification_list vott_json urls Hret Hne Hloc Hmkdir Hlabels Hclass
      Hcreate Htruthy Hserved file_tree data_dir.
    rewrite (download_received _ _ _ _ _ _ _ _ _ _ Hret).
    assert (Hiter : py_iter images_json = Ok items).
    { destruct Hret as (_ & _ & resp & s & _ & _ & _ & _ & _ & Hiter). exact Hiter. }
    destruct (download_batch_run env lib cfg json_resp images_json items location
                labels classification_list vott_json urls
                (h0 ++ received_log cfg url k (List.length items))
                Hloc Hmkdir Hiter Hlabels Hclass Hcreate Hfs Htruthy Hserved)
      as (blocks & Hrun & Hblocks).
    fold file_tree in Hrun. fold data_dir in Hrun, Hblocks.
    assert (Hcount : Nat.eqb (List.length items) 0 = false).
    { destruct items; [congruence | reflexivity]. }
    rewrite Hcount, Hrun. cbn [fst snd].
    split; [reflexivity|]. split.
    + destruct (opened_image_blocks env lib data_dir urls blocks Hblocks) as [Hopened _].
      destruct (opened_vott_events lib data_dir vott_json) as [Hvott _].
      rewrite !opened_app.
      replace (opened (received_log cfg url k (List.length items)))
        with (@nil (string * string)) by reflexivity.
      rewrite opened_cons, opened_app.
      rewrite !opened_cons, !opened_app, Hvott, Hopened.
      rewrite opened_cons, opened_app.
      rewrite (opened_prints (fun u => PathLib.str (PathLib.join data_dir (url_name lib u)))).
      destruct (env_exists env _ file_tree);
        cbn [app opened flat_map]; rewrite !app_nil_r; reflexivity.
    + apply data_json_alongside.
Qed.

(** ** strip_path_prefix *)

Lemma app_cons (c : ascii) (s t : string) : String c s +:+ t = String c (s +:+ t).
Proof. reflexivity. Qed.

Lemma app_empty (t : string) : EmptyString +:+ t = t.
Proof. reflexivity. Qed.

Lemma prefix_app (p s : string) : String.prefix p (p +:+ s) = true.
Proof.
  induction p as [|c p IH]; [by destruct s|].
  rewrite app_cons. simpl. destruct (ascii_dec c c); [exact IH | congruence].
Qed.

Lemma prefix_split (p s : string) :
  String.prefix p s = true → ∃ rest, s = p +:+ rest.
Proof.
  revert s. induction p as [|c p IH]; intros s H.
  - exists s. reflexivity.
  - destruct s as [|a s]; [discriminate|]. simpl in H.
    destruct (ascii_dec c a) as [->|]; [|discriminate].
    destruct (IH s H) as [rest ->]. exists rest. reflexivity.
Qed.

Lemma length_app_string (p s : string) :
  String.length (p +:+ s) = (String.length p + String.length s)%nat.
Proof. induction p as [|c p IH]; [reflexivity|]. rewrite app_cons. simpl. by rewrite IH. Qed.

Lemma drop_app_string (p s : string) (j : nat) :
  Str.drop (String.length p + j) (p +:+ s) = Str.drop j s.
Proof. induction p as [|c p IH]; [reflexivity|]. rewrite app_cons. simpl. exact IH. Qed.

(** The scan passes over the characters of an occurrence it has matched. *)
Lemma replace_go_skip (old new pre rest : string) :
  Str.replace_go old new (String.length pre) (pre +:+ rest)
  = Str.replace_go old new 0 rest.
Proof.
  induction pre as [|c pre IH]; [reflexivity|].
  rewrite app_cons. simpl. exact IH.
Qed.

Lemma replace_go_occurrence (old new rest : string) :
  old ≠ EmptyString →
  Str.replace_go old new 0 (old +:+ rest) = new +:+ Str.replace_go old new 0 rest.
Proof.
  intros Hne. destruct old as [|c old]; [congruence|].
  assert (Hp := prefix_app (String c old) rest).
  rewrite app_cons in *. cbn [Str.replace_go]. rewrite Hp.
  cbn [String.length]. rewrite Nat.sub_1_r. cbn [Nat.pred].
  by rewrite replace_go_skip.
Qed.

Lemma replace_go_keep (old new : string) (c : ascii) (rest : string) :
  String.prefix old (String c rest) = false →
  Str.replace_go old new 0 (String c rest) = String c (Str.replace_go old new 0 rest).
Proof. intros H. cbn [Str.replace_go]. by rewrite H. Qed.

Lemma replace_go_removed (old : string) :
  old ≠ EmptyString → ∀ s, removed old s (Str.replace_go old EmptyString 0 s).
Proof.
  intros Hne.
  assert (H : ∀ n s, (String.length s <= n)%nat →
                     removed old s (Str.replace_go old EmptyString 0 s)).
  { induction n as [|n IH]; intros s Hlen.
    - destruct s; [constructor | simpl in Hlen; lia].
    - destruct s as [|c s]; [constructor|].
      destruct (String.prefix old (String c s)) eqn:Hp.
      + destruct (prefix_split _ _ Hp) as [rest E]. rewrite E.
        rewrite (replace_go_occurrence old EmptyString rest Hne), app_empty.
        apply removed_occurrence; [exact Hne|]. apply IH.
        assert (Hl := length_app_string old rest). rewrite <- E in Hl.
        destruct old; [congruence|]. simpl in *. lia.
      + rewrite (replace_go_keep _ _ _ _ Hp).
        apply removed_keep; [exact Hp|]. apply IH. simpl in Hlen. lia. }
  intros s. apply (H (String.length s)). lia.
Qed.

(** The relation determines its result. *)
Lemma removed_functional (old s r1 r2 : string) :
  removed old s r1 → removed old s r2 → r1 = r2.
Proof.
  intros H1. revert r2.
  induction H1 as [|rest r Hne H1 IH|c rest r Hp H1 IH]; intros r2 H2.
  - inversion H2 as [|rest' r' Hne' H' E|]; [reflexivity|].
    destruct old; [congruence | discriminate].
  - inversion H2 as [E|rest' r' Hne' H' E|c rest' r' Hp' H' E]; subst.
    + destruct old; [congruence | discriminate].
    + apply String.app_inj in E. subst. by apply IH.
    + first [rewrite E in Hp' | rewrite <- E in Hp'].
      rewrite prefix_app in Hp'. discriminate.
  - inversion H2 as [|rest' r' Hne' H' E|c' rest' r' Hp' H' E]; subst.
    + first [rewrite E in Hp | rewrite <- E in Hp].
      rewrite prefix_app in Hp. discriminate.
    + f_equal. by apply IH.
Qed.

Lemma replace_go_no_occurrence (old new s : string) :
  (∀ j, String.prefix old (Str.drop j s) = false) →
  Str.replace_go old new 0 s = s.
Proof.
  induction s as [|c s IH]; intros H; [reflexivity|].
  rewrite (replace_go_keep _ _ _ _ (H 0%nat)). f_equal.
  apply IH. intros j. apply (H (S j)).
Qed.

Lemma replace_empty_old (s : string) : Str.replace EmptyString EmptyString s = s.
Proof.
  unfold Str.replace. induction s as [|c s IH]; [reflexivity|].
  cbn [Str.intersperse]. rewrite app_empty. by rewrite IH.
Qed.

Lemma replace_leading_only (old rest : string) :
  old ≠ EmptyString →
  (∀ i, occurs_at old (old +:+ rest) i → i = 0%nat) →
  Str.replace old EmptyString (old +:+ rest) = rest.
Proof.
  intros Hne Honly.
  assert (E : Str.replace old EmptyString (old +:+ rest)
              = Str.replace_go old EmptyString 0 (old +:+ rest)).
  { destruct old; [congruence | reflexivity]. }
  rewrite E, (replace_go_occurrence old EmptyString rest Hne), app_empty.
  apply replace_go_no_occurrence. intros j.
  destruct (String.prefix old (Str.drop j rest)) eqn:Hp; [|reflexivity].
  assert (Hocc : occurs_at old (old +:+ rest) (String.length old + j)).
  { unfold occurs_at. by rewrite drop_app_string. }
  apply Honly in Hocc. destruct old; [congruence | simpl in Hocc; lia].
Qed.

(** C8: [strip_path_prefix] returns (as a path) the file path with every
    occurrence of the folder name removed, found from left to right and
    not only at the start, and then without one leading '/'; when the
    folder name occurs only at the start of the file path, that is the
    rest of the path, relative to the folder. *)
Theorem strip_path_prefix_spec (folder_name file_path : string) :
  strip_path_prefix folder_name file_path
  = PathLib.of_str (without_leading_slash (Str.replace folder_name "" file_path))
  ∧ (folder_name ≠ "" →
     removed folder_name file_path (Str.replace folder_name "" file_path))
  ∧ (folder_name = "" → Str.replace folder_name "" file_path = file_path)
  ∧ (∀ rest,
       folder_name ≠ "" →
       file_path = folder_name +:+ rest →
       (∀ i, occurs_at folder_name file_path i → i = 0%nat) →
       strip_path_prefix folder_name file_path
       = PathLib.of_str (without_leading_slash rest)).
Proof.
  assert (Hdef : strip_path_prefix folder_name file_path
                 = PathLib.of_str (without_leading_slash
                                     (Str.replace folder_name "" file_path))).
  { unfold strip_path_prefix, without_leading_slash.
    destruct (Str.startswith "/" _); reflexivity. }
  split; [exact Hdef|]. split; [|split].
  - intros Hne.
    replace (Str.replace folder_name "" file_path)
      with (Str.replace_go folder_name "" 0 file_path)
      by (destruct folder_name; [congruence | reflexivity]).
    by apply replace_go_removed.
  - intros ->. apply replace_empty_old.
  - intros rest Hne -> Honly. rewrite Hdef.
    by rewrite (replace_leading_only folder_name rest Hne Honly).
Qed.

(** ** The flows on the sample world *)

Example sample_onboard :
  onboard_folder (Sample.env 200 "") Sample.cfg "/photos" []
  = (Ok tt,
     [EStorageClient;
      EPrint "Walking file system";
      EWalk "/photos";
      EPrint "Uploading /photos/a.png";
      ECreateBlob (Some "onboarding") (mkPath "" ["a.png"])
        (mkPath "/" ["photos"; "a.png"]) "image/png"
        [("userFilePath", VStr "/photos/a.png"); ("uploadUser", VStr "ana")];
      EPrint "Uploading /photos/raw/b.JPG";
      ECreateBlob (Some "onboarding") (mkPath "" ["raw"; "b.JPG"])
        (mkPath "/" ["photos"; "raw"; "b.JPG"]) "image/png"
        [("userFilePath", VStr "/photos/raw/b.JPG"); ("uploadUser", VStr "ana")];
      EPrint "onboarding from storage container";
      EPrint "Onboarding storage container images into dataset";
      EPost "https://svc.example/api/onboardcontainer"
        [("userName", VStr "ana")]
        (JObj [("storageAccount", JStr "acct");
               ("storageAccountKey", JStr "secret");
               ("storageContainer", JStr "images")]);
      EPrint "Set up container for onboarding. Onboarding may take some time."]).
Proof. vm_compute. reflexivity. Qed.

Example sample_download :
  download (Sample.env 200 Sample.two_images) Sample.lib Sample.cfg None []
  = (Ok tt,
     [EGet "https://svc.example/api/images"
        [("imageCount", VInt 40); ("userName", VStr "ana"); ("checkOut", VStr "true")];
      EPrint "Received 2 files.";
      EExists (mkPath "/" ["home"; "ana"; "tags"]);
      EPrint "Removing existing tag data directory: /home/ana/tags";
      ERmtree "/home/ana/tags";
      EMkdir (mkPath "/" ["home"; "ana"; "tags"; "data"]);
      EPrint "Downloading files to /home/ana/tags/data";
      EOpen "/home/ana/tags/data/../data.json" "w";
      EWrite "/home/ana/tags/data/../data.json" "{";
      EWrite "/home/ana/tags/data/../data.json" "}";
      EClose "/home/ana/tags/data/../data.json";
      EGet "https://cdn.example/img/1.jpg" [];
      EOpen "/home/ana/tags/data/1.jpg" "wb";
      EWrite "/home/ana/tags/data/1.jpg" "image bytes";
      EClose "/home/ana/tags/data/1.jpg";
      EGet "https://cdn.example/img/2.jpg" [];
      EOpen "/home/ana/tags/data/2.jpg" "wb";
      EWrite "/home/ana/tags/data/2.jpg" "image bytes";
      EClose "/home/ana/tags/data/2.jpg";
      EPrint "Successfully downloaded 2 images.";
      EPrint "/home/ana/tags/data/1.jpg";
      EPrint "/home/ana/tags/data/2.jpg";
      EPrint "Ready to tag!"]).
Proof. vm_compute. reflexivity. Qed.

Example sample_upload :
  upload (Sample.env 200 "") Sample.lib Sample.cfg []
  = (Ok tt,
     [EPrint "Uploading VOTT json file...";
      EOpen "/home/ana/tags/data.json" "r";
      ERead "/home/ana/tags/data.json";
      EClose "/home/ana/tags/data.json";
      EPost "https://svc.example/api/labels"
        [("userName", VStr "ana"); ("upload", VStr "true")]
        (JObj [("labels", JArr [JStr "frame1"; JStr "frame2"])]);
      EPrint "Done!"]).
Proof. vm_compute. reflexivity. Qed.

(** ** The statements at the sample world *)

Lemma onboard_folder_uploads_supported_witness :
  env_storage_client (Sample.env 200 "") [] Sample.cfg = None
  ∧ (∀ h c n f ct m, env_create_blob (Sample.env 200 "") h c n f ct m = None)
  ∧ uploaded_files (snd (onboard_folder (Sample.env 200 "") Sample.cfg "/photos" []))
    = [mkPath "/" ["photos"; "a.png"]; mkPath "/" ["photos"; "raw"; "b.JPG"]].
Proof.
  split; [reflexivity|]. split; [intros; reflexivity|].
  destruct (onboard_folder_uploads_supported (Sample.env 200 "") Sample.cfg "/photos" [])
    as (_ & H & _).
  rewrite (H eq_refl (fun _ _ _ _ _ _ => eq_refl)). vm_compute. reflexivity.
Defined.



Lemma onboard_folder_nothing_to_upload_witness :
  env_storage_client (Sample.env 200 "") [] Sample.cfg = None
  ∧ (∀ root dirs files file_name,
        (root, dirs, files) ∈ Sample.walked_docs → file_name ∈ files →
        supported_file_type file_name = false)
  ∧ onboard_folder (Sample.env 200 "") Sample.cfg "/docs" []
    = (Ok tt, [EStorageClient; EPrint "Walking file system"; EWalk "/docs";
               EPrint "Could not find any valid files to upload"]).
Proof.
  assert (Hnone : ∀ root dirs files file_name,
             (root, dirs, files) ∈ Sample.walked_docs → file_name ∈ files →
             supported_file_type file_name = false).
  { intros root dirs files file_name Hentry Hfile.
    apply list_elem_of_singleton in Hentry. injection Hentry as -> -> ->.
    apply elem_of_cons in Hfile as [->|Hfile]; [reflexivity|].
    apply list_elem_of_singleton in Hfile as ->. reflexivity. }
  split; [reflexivity|]. split; [exact Hnone|].
  apply (onboard_folder_nothing_to_upload (Sample.env 200 "") Sample.cfg "/docs" []
           eq_refl Hnone).
Defined.

Lemma download_bounds_enforced_witness :
  Sample.cfg !! "url" = Some "https://svc.example"
  ∧ ¬ (25 <= 0 ∨ 25 > 100)
  ∧ (0 <= 0 ∨ 0 > 100)
  ∧ _download_bounds (Some 25) = Ok 25
  ∧ (∃ post,
        snd (download (Sample.env 200 "") Sample.lib Sample.cfg (Some 25) [])
        = [] ++ EGet "https://svc.example/api/images"
                     [("imageCount", VInt 25); ("userName", VStr "ana");
                      ("checkOut", VStr "true")] :: post)
  ∧ download (Sample.env 200 "") Sample.lib Sample.cfg (Some 0) []
    = (Raise ImageLimitException, []).
Proof.
  assert (Hin : ¬ (25 <= 0 ∨ 25 > 100)) by lia.
  assert (Hout : 0 <= 0 ∨ 0 > 100) by lia.
  split; [reflexivity|]. split; [exact Hin|]. split; [exact Hout|].
  destruct (download_bounds_enforced (Some 25)) as (_ & _ & Hok & Hsend).
  destruct (download_bounds_enforced (Some 0)) as (_ & _ & _ & Hrefuse).
  split; [exact (Hok Hin)|]. split.
  - exact (proj2 (Hsend (Sample.env 200 "") Sample.lib Sample.cfg "https://svc.example" []
                        eq_refl) Hin).
  - exact (proj1 (Hrefuse (Sample.env 200 "") Sample.lib Sample.cfg "https://svc.example" []
                          eq_refl) Hout).
Defined.

Lemma http_errors_propagate_witness :
  Sample.cfg !! "url" = Some "https://svc.example"
  ∧ 400 <= 503 < 600
  ∧ fst (onboard_container (Sample.env 503 "") Sample.cfg
           (Some "acct") (Some "secret") (Some "images") [])
    = Raise (HTTPError 503)
  ∧ download (Sample.env 503 "") Sample.lib Sample.cfg None []
    = (Raise (HTTPError 503),
       [EGet "https://svc.example/api/images"
          [("imageCount", VInt 40); ("userName", VStr "ana"); ("checkOut", VStr "true")]])
  ∧ upload (Sample.env 503 "") Sample.lib Sample.cfg []
    = (Raise (HTTPError 503),
       [EPrint "Uploading VOTT json file...";
        EOpen "/home/ana/tags/data.json" "r";
        ERead "/home/ana/tags/data.json";
        EClose "/home/ana/tags/data.json";
        EPost "https://svc.example/api/labels"
          [("userName", VStr "ana"); ("upload", VStr "true")]
          (JObj [("labels", JArr [JStr "frame1"; JStr "frame2"])])]).
Proof.
  assert (Hstatus : 400 <= 503 < 600) by lia.
  split; [reflexivity|]. split; [exact Hstatus|].
  destruct (http_errors_propagate (Sample.env 503 "") Sample.lib Sample.cfg
              "https://svc.example" eq_refl) as (Honboard & Hdownload & Hupload).
  split; [|split].
  - rewrite (Honboard (Some "acct") (Some "secret") "images" []
               (mkResponse 503 (Some JNull) "") eq_refl Hstatus).
    reflexivity.
  - exact (Hdownload None 40 []
             (mkResponse 503
                (Some (JObj [("images", JStr "");
                             ("classification_list", JArr [JStr "cat"])])) "")
             eq_refl eq_refl Hstatus).
  - exact (Hupload "/home/ana/tags" "frame1,frame2"
             (JArr [JStr "frame1"; JStr "frame2"])
             (JObj [("labels", JArr [JStr "frame1"; JStr "frame2"])])
             [] (mkResponse 503 (Some JNull) "")
             eq_refl eq_refl eq_refl eq_refl eq_refl eq_refl Hstatus).
Defined.

Lemma upload_posts_processed_labels_witness :
  Sample.cfg !! "url" = Some "https://svc.example"
  ∧ Sample.cfg !! "tagging_location" = Some "/home/ana/tags"
  ∧ env_open (Sample.env 200 "") [EPrint "Uploading VOTT json file..."]
      "/home/ana/tags/data.json" "r" = None
  ∧ env_read (Sample.env 200 "")
      [EPrint "Uploading VOTT json file..."; EOpen "/home/ana/tags/data.json" "r"]
      "/home/ana/tags/data.json" = Ok "frame1,frame2"
  ∧ json_loads Sample.lib "frame1,frame2" = Some (JArr [JStr "frame1"; JStr "frame2"])
  ∧ process_vott_json Sample.lib (JArr [JStr "frame1"; JStr "frame2"])
    = Ok (JObj [("labels", JArr [JStr "frame1"; JStr "frame2"])])
  ∧ remote_calls (snd (upload (Sample.env 200 "") Sample.lib Sample.cfg []))
    = [EPost "https://svc.example/api/labels"
         [("userName", VStr "ana"); ("upload", VStr "true")]
         (JObj [("labels", JArr [JStr "frame1"; JStr "frame2"])])].
Proof.
  do 6 (split; [reflexivity|]).
  destruct (upload_posts_processed_labels (Sample.env 200 "") Sample.lib Sample.cfg
              "https://svc.example" "/home/ana/tags" "frame1,frame2"
              (JArr [JStr "frame1"; JStr "frame2"])
              (JObj [("labels", JArr [JStr "frame1"; JStr "frame2"])])
              [] eq_refl eq_refl eq_refl eq_refl eq_refl eq_refl) as (_ & Hremote & _).
  exact Hremote.
Defined.

Lemma strip_path_prefix_spec_witness :
  "/my/full/path" ≠ ""
  ∧ "/my/full/path/1.jpg" = "/my/full/path" +:+ "/1.jpg"
  ∧ (∀ i, occurs_at "/my/full/path" "/my/full/path/1.jpg" i → i = 0%nat)
  ∧ strip_path_prefix "/my/full/path" "/my/full/path/1.jpg" = mkPath "" ["1.jpg"].
Proof.
  assert (Hne : "/my/full/path" ≠ "") by discriminate.
  assert (Honly : ∀ i, occurs_at "/my/full/path" "/my/full/path/1.jpg" i → i = 0%nat).
  { intros i H. unfold occurs_at in H.
    destruct i as [|i]; [reflexivity|]. exfalso.
    do 19 (destruct i as [|i]; [vm_compute in H; discriminate|]).
    simpl in H. destruct i; discriminate. }
  split; [exact Hne|]. split; [reflexivity|]. split; [exact Honly|].
  destruct (strip_path_prefix_spec "/my/full/path" "/my/full/path/1.jpg")
    as (_ & _ & _ & Hrel).
  rewrite (Hrel "/1.jpg" Hne eq_refl Honly). reflexivity.
Defined.

Lemma sample_batch :
  images_endpoint_returns (Sample.env 200 Sample.two_images) Sample.lib Sample.cfg
    None [] "https://svc.example" 40
    (JObj [("images", JStr Sample.two_images);
           ("classification_list", JArr [JStr "cat"])])
    (JArr [JStr "https://cdn.example/img/1.jpg"; JStr "https://cdn.example/img/2.jpg"])
    [JStr "https://cdn.example/img/1.jpg"; JStr "https://cdn.example/img/2.jpg"].
Proof.
  split; [reflexivity|]. split; [reflexivity|].
  exists (mkResponse 200
            (Some (JObj [("images", JStr Sample.two_images);
                         ("classification_list", JArr [JStr "cat"])])) ""),
         Sample.two_images.
  repeat split; reflexivity.
Defined.

Lemma sample_empty_batch :
  images_endpoint_returns (Sample.env 200 "") Sample.lib Sample.cfg
    None [] "https://svc.example" 40
    (JObj [("images", JStr ""); ("classification_list", JArr [JStr "cat"])])
    (JArr []) [].
Proof.
  split; [reflexivity|]. split; [reflexivity|].
  exists (mkResponse 200
            (Some (JObj [("images", JStr "");
                         ("classification_list", JArr [JStr "cat"])])) ""),
         "".
  repeat split; reflexivity.
Defined.

Lemma sample_files_writable (status : Z) (images : string) :
  files_writable (Sample.env status images).
Proof. split; intros; reflexivity. Defined.

Lemma sample_images_served (status : Z) (images : string) (urls : list string) :
  images_served (Sample.env status images) urls.
Proof. intros h u _. exists (mkResponse 200 None "image bytes"). reflexivity. Defined.

Lemma download_materializes_batch_witness :
  files_writable (Sample.env 200 Sample.two_images)
  ∧ truthy (JStr "doc") = true
  ∧ images_served (Sample.env 200 Sample.two_images)
      ["https://cdn.example/img/1.jpg"; "https://cdn.example/img/2.jpg"]
  ∧ (∃ blocks,
        download_images (Sample.env 200 Sample.two_images) Sample.lib Sample.cfg
          (mkPath "/" ["home"; "ana"; "tags"; "data"])
          (JObj [("vott_json", JStr "doc");
                 ("imageUrls", JArr [JStr "https://cdn.example/img/1.jpg";
                                     JStr "https://cdn.example/img/2.jpg"])]) []
        = (Ok [mkPath "/" ["home"; "ana"; "tags"; "data"; "1.jpg"];
               mkPath "/" ["home"; "ana"; "tags"; "data"; "2.jpg"]],
           [] ++ EPrint "Downloading files to /home/ana/tags/data"
              :: vott_events Sample.lib (mkPath "/" ["home"; "ana"; "tags"; "data"])
                   (JStr "doc")
              ++ concat blocks))
  ∧ fst (download (Sample.env 200 Sample.two_images) Sample.lib Sample.cfg None [])
    = Ok tt
  ∧ opened (snd (download (Sample.env 200 Sample.two_images) Sample.lib Sample.cfg None []))
    = [("/home/ana/tags/data/../data.json", "w");
       ("/home/ana/tags/data/1.jpg", "wb");
       ("/home/ana/tags/data/2.jpg", "wb")]
  ∧ normpath (mkPath "/" ["home"; "ana"; "tags"; "data"; ".."; "data.json"])
    = ["home"; "ana"; "tags"; "data.json"].
Proof.
  pose proof (sample_files_writable 200 Sample.two_images) as Hfs.
  pose proof (sample_images_served 200 Sample.two_images
                ["https://cdn.example/img/1.jpg"; "https://cdn.example/img/2.jpg"])
    as Hserved.
  split; [exact Hfs|]. split; [reflexivity|]. split; [exact Hserved|].
  destruct (download_materializes_batch (Sample.env 200 Sample.two_images)
              Sample.lib Sample.cfg Hfs) as [Himages Hdownload].
  split.
  - destruct (Himages (mkPath "/" ["home"; "ana"; "tags"; "data"]) (JStr "doc")
                ["https://cdn.example/img/1.jpg"; "https://cdn.example/img/2.jpg"] []
                eq_refl Hserved) as (blocks & Hrun & _).
    exists blocks. exact Hrun.
  - assert (Hne : [JStr "https://cdn.example/img/1.jpg";
                   JStr "https://cdn.example/img/2.jpg"] ≠ []) by discriminate.
    assert (Hlabels :
      Forall2 (fun item (label : ImageLabel Sample.lib) =>
                 ImageLabel_fromJson Sample.lib item = Ok label)
              [JStr "https://cdn.example/img/1.jpg"; JStr "https://cdn.example/img/2.jpg"]
              ["https://cdn.example/img/1.jpg"; "https://cdn.example/img/2.jpg"]).
    { repeat constructor. }
    destruct (Hdownload None [] "https://svc.example" 40 _ _ _ "/home/ana/tags"
                ["https://cdn.example/img/1.jpg"; "https://cdn.example/img/2.jpg"]
                (JArr [JStr "cat"])
                (JObj [("frames", JArr [JStr "https://cdn.example/img/1.jpg";
                                        JStr "https://cdn.example/img/2.jpg"]);
                       ("inputTags", JArr [JStr "cat"])])
                ["https://cdn.example/img/1.jpg"; "https://cdn.example/img/2.jpg"]
                sample_batch Hne eq_refl (fun _ _ => eq_refl) Hlabels
                eq_refl eq_refl eq_refl Hserved)
      as (Hok & Hopened & _ & Hnorm).
    split; [exact Hok|]. split; [exact Hopened|]. exact Hnorm.
Defined.

Lemma download_removes_tree_only_for_batch_witness :
  images_endpoint_returns (Sample.env 200 "") Sample.lib Sample.cfg
    None [] "https://svc.example" 40
    (JObj [("images", JStr ""); ("classification_list", JArr [JStr "cat"])])
    (JArr []) []
  ∧ download (Sample.env 200 "") Sample.lib Sample.cfg None []
    = (Ok tt,
       [EGet "https://svc.example/api/images"
          [("imageCount", VInt 40); ("userName", VStr "ana"); ("checkOut", VStr "true")];
        EPrint "Received 0 files.";
        EPrint "No images could be retrieved with the current retrieval strategy!"])
  ∧ Sample.cfg !! "tagging_location" = Some "/home/ana/tags"
  ∧ (∃ post,
        snd (download (Sample.env 200 Sample.two_images) Sample.lib Sample.cfg None [])
        = [EGet "https://svc.example/api/images"
             [("imageCount", VInt 40); ("userName", VStr "ana");
              ("checkOut", VStr "true")];
           EPrint "Received 2 files."]
          ++ EExists (mkPath "/" ["home"; "ana"; "tags"])
          :: [EPrint "Removing existing tag data directory: /home/ana/tags";
              ERmtree "/home/ana/tags"]
          ++ EMkdir (mkPath "/" ["home"; "ana"; "tags"; "data"]) :: post)
  ∧ fs_changes (snd (download (Sample.env 200 Sample.two_images) Sample.lib
                        Sample.cfg None []))
    ≠ fs_changes []
  ∧ ∃ url k json_resp images_json items,
      images_endpoint_returns (Sample.env 200 Sample.two_images) Sample.lib Sample.cfg
        None [] url k json_resp images_json items
      ∧ items ≠ [].
Proof.
  assert (Hchanged :
    fs_changes (snd (download (Sample.env 200 Sample.two_images) Sample.lib
                       Sample.cfg None []))
    ≠ fs_changes []) by (vm_compute; discriminate).
  destruct (download_removes_tree_only_for_batch (Sample.env 200 "") Sample.lib
              Sample.cfg None []) as (_ & Hempty & _).
  destruct (download_removes_tree_only_for_batch (Sample.env 200 Sample.two_images)
              Sample.lib Sample.cfg None []) as (Honly & _ & Hbatch).
  split; [exact sample_empty_batch|].
  split; [exact (proj1 (Hempty _ _ _ _ sample_empty_batch))|].
  split; [reflexivity|].
  split; [|split; [exact Hchanged | exact (Honly Hchanged)]].
  assert (Hne : [JStr "https://cdn.example/img/1.jpg";
                 JStr "https://cdn.example/img/2.jpg"] ≠ []) by discriminate.
  exact (Hbatch _ _ _ _ _ "/home/ana/tags" sample_batch Hne eq_refl).
Defined.

(** * Further properties of operations.py *)

(** ** What the flows never do *)

Lemma emits_ret {A} P (a : A) : emits P (ret a).
Proof. intros h. exists []. simpl. by rewrite app_nil_r. Qed.

Lemma emits_raise {A} P (e : exn) : emits P (@raise A e).
Proof. intros h. exists []. simpl. by rewrite app_nil_r. Qed.

Lemma emits_lift {A} P (o : outcome A) : emits P (lift o).
Proof. intros h. exists []. simpl. by rewrite app_nil_r. Qed.

Lemma emits_call {A} (P : event → Prop) (e : event) (answer : log → outcome A) :
  P e → emits P (call e answer).
Proof. intros He h. exists [e]. split; [reflexivity | by constructor]. Qed.

Lemma emits_bind {A B} P (m : M A) (k : A → M B) :
  emits P m → (∀ a, emits P (k a)) → emits P (bind m k).
Proof.
  intros Hm Hk h. unfold bind.
  destruct (Hm h) as (n1 & E1 & F1).
  destruct (m h) as [[a|e] h1]; simpl in E1; subst h1.
  - destruct (Hk a (h ++ n1)) as (n2 & E2 & F2). exists (n1 ++ n2).
    rewrite E2, app_assoc. split; [reflexivity | by apply Forall_app].
  - by exists n1.
Qed.

(** The same, keeping what is known about the value passed on. *)
Lemma emits_bind_val {A B} P (m : M A) (k : A → M B) :
  emits P m → (∀ a, (∃ h h', m h = (Ok a, h')) → emits P (k a)) → emits P (bind m k).
Proof.
  intros Hm Hk h. unfold bind.
  destruct (Hm h) as (n1 & E1 & F1).
  destruct (m h) as [[a|e] h1] eqn:Em; simpl in E1; subst h1.
  - destruct (Hk a (ex_intro _ h (ex_intro _ _ Em)) (h ++ n1)) as (n2 & E2 & F2).
    exists (n1 ++ n2).
    rewrite E2, app_assoc. split; [reflexivity | by apply Forall_app].
  - by exists n1.
Qed.

Lemma str_add_value (a : option string) (b s : string) :
  (∃ h h', str_add a b h = (Ok s, h')) → ∃ base, a = Some base ∧ s = base +:+ b.
Proof.
  intros (h & h' & E). destruct a as [base|]; [|discriminate].
  exists base. split; [reflexivity|]. unfold str_add, ret in E. congruence.
Qed.

Lemma lift_value {A} (o : outcome A) (a : A) :
  (∃ h h', lift o h = (Ok a, h')) → o = Ok a.
Proof. intros (h & h' & E). unfold lift in E. congruence. Qed.

Lemma emits_for_each {A} P (l : list A) (body : A → M unit) :
  (∀ x, emits P (body x)) → emits P (for_each l body).
Proof.
  intros Hb. induction l as [|x l IH]; simpl.
  - apply emits_ret.
  - apply emits_bind; [apply Hb | intros _; apply IH].
Qed.

Lemma emits_map_M {A B} P (f : A → M B) (l : list A) :
  (∀ x, emits P (f x)) → emits P (map_M f l).
Proof.
  intros Hf. induction l as [|x l IH]; simpl.
  - apply emits_ret.
  - apply emits_bind; [apply Hf | intros y].
    apply emits_bind; [apply IH | intros ys; apply emits_ret].
Qed.

Lemma emits_finally {A} P (body : M A) (fin : M unit) :
  emits P body → emits P fin → emits P (finally body fin).
Proof.
  intros Hb Hf h. unfold finally.
  destruct (Hb h) as (n1 & E1 & F1).
  destruct (body h) as [[a|e] h1]; simpl in E1; subst h1;
    destruct (Hf (h ++ n1)) as (n2 & E2 & F2); exists (n1 ++ n2);
    destruct (fin (h ++ n1)) as [[u|e'] h2]; simpl in *; subst h2;
    rewrite app_assoc; (split; [reflexivity | by apply Forall_app]).
Qed.

Ltac emits_step :=
  first
    [ apply emits_ret | apply emits_raise | apply emits_lift
    | apply emits_call
    | apply emits_bind_val; [|intros ? ?]
    | apply emits_for_each; intro
    | apply emits_map_M; intro
    | apply emits_finally
    | match goal with
      | |- emits _ (match ?x with _ => _ end) => destruct x eqn:?
      | |- emits _ (if ?b then _ else _) => destruct b eqn:?
      end
    | progress autounfold with flows ].

Ltac emits_tac := repeat emits_step.

(** X1: whatever the world answers, [onboard_folder] only prints, asks for
    the storage client, walks, uploads blobs and posts to the
    onboard-container endpoint.  It never reads or writes a local file and
    never sends a GET; every blob goes to the temporary container with
    content type image/png (also for .jpg and .gif files) and with the
    metadata fields userFilePath and uploadUser. *)
Theorem onboard_folder_calls env cfg folder_name h0 :
  ∃ new,
    snd (onboard_folder env cfg folder_name h0) = h0 ++ new
    ∧ Forall (onboard_may cfg) new.
Proof.
  revert h0. change (emits (onboard_may cfg) (onboard_folder env cfg folder_name)).
  unfold onboard_folder, onboard_container, upload_blob.
  emits_tac; cbn; eauto 10.
  split; [|reflexivity]. by apply str_add_value.
Qed.

(** X2: whatever the world answers, [download] only prints, sends GET
    requests, asks whether a path exists, removes a tree, creates a
    directory and opens files for writing.  It never posts to the service,
    never touches blob storage and never reads a local file. *)
Theorem download_calls env lib cfg num_images h0 :
  ∃ new,
    snd (download env lib cfg num_images h0) = h0 ++ new
    ∧ Forall download_may new.
Proof.
  revert h0. change (emits download_may (download env lib cfg num_images)).
  unfold download, download_batch, download_images, write_vott_data, download_image.
  emits_tac; cbn; auto.
Qed.

(** X3: whatever the world answers, [upload] only prints, opens, reads and
    closes data.json of the tagging location, and posts to the labels
    endpoint with the user name and upload=true.  It never writes,
    creates or removes a local file. *)
Theorem upload_calls env lib cfg h0 :
  ∃ new,
    snd (upload env lib cfg h0) = h0 ++ new
    ∧ Forall (upload_may cfg lib) new
    ∧ fs_changes new = [].
Proof.
  assert (H : emits (upload_may cfg lib) (upload env lib cfg)).
  { unfold upload. emits_tac; cbn; eauto 10;
      try (split; [by apply str_add_value | reflexivity]);
      match goal with
      | H : ∃ h h', lift _ h = (Ok _, h') |- _ =>
          apply lift_value in H;
          destruct (cfg !! "tagging_location") as [location|];
          [injection H as <-; by exists location | discriminate]
      end. }
  destruct (H h0) as (new & E & F). exists new. split; [exact E|]. split; [exact F|].
  clear E. induction F as [|e new He _ IH]; [reflexivity|].
  destruct e; cbn in *; try contradiction; try exact IH.
  destruct mode as [|c mode]; [contradiction|].
  destruct c as [[] [] [] [] [] [] [] []]; try contradiction.
  destruct mode; [exact IH | contradiction].
Qed.

(** ** onboard_folder: order and configuration *)

(** The upload loop either uploads every file, or stops with the exception
    of the first upload that raises; the log then ends with that upload. *)
Lemma upload_loop_cases env cfg folder_name files h :
  for_each files (upload_blob env cfg folder_name) h
  = (Ok tt, h ++ upload_events cfg folder_name files)
  ∨ ∃ e attempted rest,
      files = attempted ++ rest
      ∧ for_each files (upload_blob env cfg folder_name) h
        = (Raise e, h ++ upload_events cfg folder_name attempted).
Proof.
  revert h. induction files as [|p files IH]; intros h.
  - left. simpl. unfold ret. by rewrite app_nil_r.
  - assert (Hstep :
      for_each (p :: files) (upload_blob env cfg folder_name) h
      = match fst (upload_blob env cfg folder_name p h) with
        | Ok _ => for_each files (upload_blob env cfg folder_name)
                    (h ++ [EPrint ("Uploading " +:+ p); blob_event cfg folder_name p])
        | Raise e => (Raise e, h ++ [EPrint ("Uploading " +:+ p);
                                     blob_event cfg folder_name p])
        end).
    { cbn [for_each]. unfold bind at 1. rewrite upload_blob_run.
      cbn [fst]. destruct (of_option _); reflexivity. }
    rewrite Hstep. clear Hstep.
    destruct (fst (upload_blob env cfg folder_name p h)) as [[]|e].
    + destruct (IH (h ++ [EPrint ("Uploading " +:+ p); blob_event cfg folder_name p]))
        as [Hok|(e & attempted & rest & -> & Hraise)].
      * left. rewrite Hok. rewrite <- app_assoc. reflexivity.
      * right. exists e, (p :: attempted), rest. split; [reflexivity|].
        rewrite Hraise. rewrite <- app_assoc. reflexivity.
    + right. exists e, [p], files. split; [reflexivity|].
      cbn. reflexivity.
Qed.

Lemma upload_events_no_post cfg folder_name files url params body :
  EPost url params body ∉ upload_events cfg folder_name files.
Proof.
  induction files as [|p files IH]; simpl.
  - apply not_elem_of_nil.
  - intros H. apply elem_of_cons in H as [H|H]; [discriminate|].
    apply elem_of_cons in H as [H|H]; [discriminate | contradiction].
Qed.

(** X4: [onboard_folder] sends the onboard request only after every
    supported file of the walk has been uploaded.  In any run whose log
    contains a POST, the log starts with the walk and one upload per
    supported file, in order; the request comes after the last upload and
    no upload follows it. *)
Theorem onboard_signals_after_all_uploads env cfg folder_name h0 new :
  snd (onboard_folder env cfg folder_name h0) = h0 ++ new →
  (∃ url params body, EPost url params body ∈ new) →
  let files :=
    flat_map supported_in
      (env_walk env (h0 ++ [EStorageClient; EPrint "Walking file system"]) folder_name) in
  files ≠ []
  ∧ ∃ tail,
      new = [EStorageClient; EPrint "Walking file system"; EWalk folder_name]
            ++ upload_events cfg folder_name files ++ tail
      ∧ uploaded_files tail = []
      ∧ ∃ url params body, EPost url params body ∈ tail.
Proof.
  intros Hnew (url & params & body & Hpost) files.
  destruct (env_storage_client env h0 cfg) as [e|] eqn:Hclient.
  { exfalso. revert Hnew.
    unfold onboard_folder, get_azure_storage_client. rewrite bind_call, Hclient.
    cbn [of_option snd]. intros Hnew. apply app_inv_head in Hnew. subst new.
    apply list_elem_of_singleton in Hpost. discriminate. }
  rewrite (onboard_folder_walk env cfg folder_name h0 Hclient) in Hnew.
  cbv zeta in Hnew. fold files in Hnew.
  destruct files as [|f files'] eqn:Efiles.
  { exfalso. cbn [snd] in Hnew. rewrite <- app_assoc in Hnew.
    apply app_inv_head in Hnew. subst new.
    repeat (apply elem_of_cons in Hpost as [Hpost|Hpost]; [discriminate|]).
    by apply not_elem_of_nil in Hpost. }
  split; [discriminate|].
  unfold bind at 1 in Hnew.
  destruct (upload_loop_cases env cfg folder_name (f :: files')
              ((h0 ++ [EStorageClient; EPrint "Walking file system"])
               ++ [EWalk folder_name]))
    as [Hok|(e & attempted & rest & Hsplit & Hraise)].
  - rewrite Hok in Hnew.
    destruct (extends_onboard_container env cfg
                (cfg !! "storage_account") (cfg !! "storage_key")
                (cfg !! "storage_container")
                (((h0 ++ [EStorageClient; EPrint "Walking file system"])
                  ++ [EWalk folder_name])
                 ++ upload_events cfg folder_name (f :: files')))
      as [tail Htail].
    assert (Hup := onboard_container_no_upload env cfg
                     (cfg !! "storage_account") (cfg !! "storage_key")
                     (cfg !! "storage_container")
                     (((h0 ++ [EStorageClient; EPrint "Walking file system"])
                       ++ [EWalk folder_name])
                      ++ upload_events cfg folder_name (f :: files'))).
    rewrite Htail in Hup. rewrite uploaded_files_app in Hup.
    rewrite Htail in Hnew. rewrite <- !app_assoc in Hnew.
    apply app_inv_head in Hnew. subst new.
    exists tail. split; [reflexivity|]. split.
    + rewrite <- (app_nil_r (uploaded_files _)) in Hup at 2.
      by apply app_inv_head in Hup.
    + exists url, params, body.
      cbn [app] in Hpost.
      repeat (apply elem_of_cons in Hpost as [Hpost|Hpost]; [discriminate|]).
      apply elem_of_app in Hpost as [Hpost|Hpost]; [|exact Hpost].
      exfalso. by apply upload_events_no_post in Hpost.
  - exfalso. rewrite Hraise in Hnew. cbn [snd] in Hnew.
    rewrite <- !app_assoc in Hnew. apply app_inv_head in Hnew. subst new.
    cbn [app] in Hpost.
    repeat (apply elem_of_cons in Hpost as [Hpost|Hpost]; [discriminate|]).
    by apply upload_events_no_post in Hpost.
Qed.

(** X5: the configuration is looked at late.  When the service URL or the
    storage container is not configured, [onboard_folder] still uploads
    every supported file and only then ends with a TypeError, without
    sending the onboard request. *)
Theorem onboard_folder_unconfigured env cfg folder_name h0 :
  env_storage_client env h0 cfg = None →
  (∀ h c n f ct m, env_create_blob env h c n f ct m = None) →
  let files :=
    flat_map supported_in
      (env_walk env (h0 ++ [EStorageClient; EPrint "Walking file system"]) folder_name) in
  files ≠ [] →
  cfg !! "url" = None ∨ cfg !! "storage_container" = None →
  fst (onboard_folder env cfg folder_name h0) = Raise TypeError
  ∧ remote_calls (snd (onboard_folder env cfg folder_name h0))
    = remote_calls h0 ++ map (blob_event cfg folder_name) files.
Proof.
  intros Hclient Hstore files Hne Hmissing.
  rewrite (onboard_folder_run env cfg folder_name h0 Hclient Hstore). cbv zeta.
  fold files. destruct files as [|f files'] eqn:E; [congruence|].
  unfold onboard_container. rewrite bind_print. unfold str_add, add_str.
  destruct (cfg !! "url") as [url|].
  - destruct Hmissing as [Hmissing|Hmissing]; [discriminate|]. rewrite Hmissing.
    rewrite bind_ret. cbn [fst snd bind raise].
    split; [reflexivity|].
    unfold bind, raise. cbn [snd].
    rewrite !remote_calls_app, remote_upload_events. cbn.
    by rewrite !app_nil_r.
  - split; [reflexivity|].
    unfold bind, raise. cbn [snd].
    rewrite !remote_calls_app, remote_upload_events. cbn.
    by rewrite !app_nil_r.
Qed.

Lemma onboard_folder_unconfigured_witness :
  env_storage_client (Sample.env 200 "") [] (delete "url" Sample.cfg) = None
  ∧ (∀ h c n f ct m, env_create_blob (Sample.env 200 "") h c n f ct m = None)
  ∧ flat_map supported_in Sample.walked ≠ []
  ∧ (delete "url" Sample.cfg !! "url" = None
     ∨ delete "url" Sample.cfg !! "storage_container" = None)
  ∧ onboard_folder (Sample.env 200 "") (delete "url" Sample.cfg) "/photos" []
    = (Raise TypeError,
       [EStorageClient;
        EPrint "Walking file system";
        EWalk "/photos";
        EPrint "Uploading /photos/a.png";
        ECreateBlob (Some "onboarding") (mkPath "" ["a.png"])
          (mkPath "/" ["photos"; "a.png"]) "image/png"
          [("userFilePath", VStr "/photos/a.png"); ("uploadUser", VStr "ana")];
        EPrint "Uploading /photos/raw/b.JPG";
        ECreateBlob (Some "onboarding") (mkPath "" ["raw"; "b.JPG"])
          (mkPath "/" ["photos"; "raw"; "b.JPG"]) "image/png"
          [("userFilePath", VStr "/photos/raw/b.JPG"); ("uploadUser", VStr "ana")];
        EPrint "onboarding from storage container"]).
Proof.
  assert (Hne : flat_map supported_in Sample.walked ≠ []) by (vm_compute; discriminate).
  assert (Hmissing : delete "url" Sample.cfg !! "url" = None
                     ∨ delete "url" Sample.cfg !! "storage_container" = None)
    by (left; reflexivity).
  split; [reflexivity|]. split; [intros; reflexivity|].
  split; [exact Hne|]. split; [exact Hmissing|].
  destruct (onboard_folder_unconfigured (Sample.env 200 "") (delete "url" Sample.cfg)
              "/photos" [] eq_refl (fun _ _ _ _ _ _ => eq_refl) Hne Hmissing)
    as [Hraise _].
  destruct (onboard_folder (Sample.env 200 "") (delete "url" Sample.cfg) "/photos" [])
    as [o t] eqn:Hrun.
  cbn [fst] in Hraise. subst o. f_equal.
  apply (f_equal snd) in Hrun. cbn [snd] in Hrun. rewrite <- Hrun.
  vm_compute. reflexivity.
Defined.

Lemma onboard_signals_after_all_uploads_witness :
  snd (onboard_folder (Sample.env 200 "") Sample.cfg "/photos" [])
  = [] ++ [EStorageClient;
           EPrint "Walking file system";
           EWalk "/photos";
           EPrint "Uploading /photos/a.png";
           ECreateBlob (Some "onboarding") (mkPath "" ["a.png"])
             (mkPath "/" ["photos"; "a.png"]) "image/png"
             [("userFilePath", VStr "/photos/a.png"); ("uploadUser", VStr "ana")];
           EPrint "Uploading /photos/raw/b.JPG";
           ECreateBlob (Some "onboarding") (mkPath "" ["raw"; "b.JPG"])
             (mkPath "/" ["photos"; "raw"; "b.JPG"]) "image/png"
             [("userFilePath", VStr "/photos/raw/b.JPG"); ("uploadUser", VStr "ana")];
           EPrint "onboarding from storage container";
           EPrint "Onboarding storage container images into dataset";
           EPost "https://svc.example/api/onboardcontainer"
             [("userName", VStr "ana")]
             (JObj [("storageAccount", JStr "acct");
                    ("storageAccountKey", JStr "secret");
                    ("storageContainer", JStr "images")]);
           EPrint "Set up container for onboarding. Onboarding may take some time."]
  ∧ flat_map supported_in Sample.walked ≠ [].
Proof.
  assert (Hrun : snd (onboard_folder (Sample.env 200 "") Sample.cfg "/photos" [])
                 = [] ++ snd (onboard_folder (Sample.env 200 "") Sample.cfg "/photos" []))
    by reflexivity.
  split; [vm_compute; reflexivity|].
  refine (proj1 (onboard_signals_after_all_uploads (Sample.env 200 "") Sample.cfg
                   "/photos" [] _ Hrun _)).
  exists "https://svc.example/api/onboardcontainer",
         [("userName", VStr "ana")],
         (JObj [("storageAccount", JStr "acct");
                ("storageAccountKey", JStr "secret");
                ("storageContainer", JStr "images")]).
  vm_compute. do 9 apply list_elem_of_further. apply list_elem_of_here.
Defined.

(** ** upload: what is sent, and when *)

(** X6: [upload] sends nothing to the service unless data.json was opened,
    read, decoded and transformed without exception; it then sends exactly
    one request, whose body is the transformed document. *)
Theorem upload_sends_only_decoded_labels env lib cfg h :
  remote_calls (snd (upload env lib cfg h)) = remote_calls h
  ∨ ∃ url location text json_data process_json,
      cfg !! "url" = Some url
      ∧ cfg !! "tagging_location" = Some location
      ∧ env_read env
          (h ++ [EPrint "Uploading VOTT json file...";
                 EOpen (PathLib.str (PathLib.join
                                       (PathLib.of_str (expanduser lib location))
                                       "data.json")) "r"])
          (PathLib.str (PathLib.join (PathLib.of_str (expanduser lib location))
                                     "data.json"))
        = Ok text
      ∧ json_loads lib text = Some json_data
      ∧ process_vott_json lib json_data = Ok process_json
      ∧ remote_calls (snd (upload env lib cfg h))
        = remote_calls h
          ++ [EPost (url +:+ "/api/labels")
                    [("userName", opt_str (cfg !! "tagging_user"));
                     ("upload", VStr "true")]
                    process_json].
Proof.
  destruct (cfg !! "url") as [url|] eqn:Hurl.
  2:{ left. unfold upload. rewrite Hurl. reflexivity. }
  destruct (cfg !! "tagging_location") as [location|] eqn:Hloc.
  2:{ left. unfold upload. rewrite Hurl, Hloc. reflexivity. }
  set (data_json := PathLib.str (PathLib.join (PathLib.of_str (expanduser lib location))
                                              "data.json")).
  set (h1 := h ++ [EPrint "Uploading VOTT json file..."]).
  assert (Hstart :
    upload env lib cfg h
    = bind (with_open env data_json "r"
              (text <- file_read env data_json ;;
               lift (match json_loads lib text with
                     | Some j => Ok j
                     | None => Raise JSONDecodeError
                     end)))
           (fun json_data =>
              process_json <- lift (process_vott_json lib json_data) ;;
              response <- requests_post env (url +:+ "/api/labels")
                            [("userName", opt_str (cfg !! "tagging_user"));
                             ("upload", VStr "true")] process_json ;;
              raise_for_status response ;;
              resp_json <- response_json response ;;
              print "Done!") h1).
  { unfold upload. rewrite Hurl, Hloc. reflexivity. }
  destruct (env_open env h1 data_json "r") as [e|] eqn:Hopen.
  { left. rewrite Hstart. unfold bind at 1. rewrite with_open_run, Hopen.
    cbn [snd]. unfold h1. rewrite !remote_calls_app. cbn. by rewrite !app_nil_r. }
  destruct (env_read env (h1 ++ [EOpen data_json "r"]) data_json) as [text|e] eqn:Hread.
  2:{ left. rewrite Hstart. unfold bind at 1. rewrite with_open_run, Hopen.
      unfold file_read. rewrite bind_call, Hread.
      cbn [snd]. unfold h1. rewrite !remote_calls_app. cbn. by rewrite !app_nil_r. }
  destruct (json_loads lib text) as [json_data|] eqn:Hloads.
  2:{ left. rewrite Hstart. unfold bind at 1. rewrite with_open_run, Hopen.
      unfold file_read. rewrite bind_call, Hread, Hloads. unfold lift at 1.
      cbn [snd]. unfold h1. rewrite !remote_calls_app. cbn. by rewrite !app_nil_r. }
  destruct (process_vott_json lib json_data) as [process_json|e] eqn:Hproc.
  2:{ left. rewrite Hstart. unfold bind at 1. rewrite with_open_run, Hopen.
      unfold file_read. rewrite bind_call, Hread, Hloads. unfold lift at 1.
      rewrite bind_lift, Hproc.
      cbn [snd]. unfold h1. rewrite !remote_calls_app. cbn. by rewrite !app_nil_r. }
  right. exists url, location, text, json_data, process_json.
  fold data_json. fold h1.
  assert (Hread' : env_read env (h ++ [EPrint "Uploading VOTT json file...";
                                       EOpen data_json "r"]) data_json = Ok text).
  { unfold h1 in Hread. rewrite <- app_assoc in Hread. exact Hread. }
  do 2 (split; [reflexivity|]). split; [exact Hread'|].
  do 2 (split; [assumption|]).
  rewrite (upload_run env lib cfg url location text json_data process_json h
             Hurl Hloc Hopen Hread Hloads Hproc).
  cbv zeta. fold data_json. fold h1.
  destruct (env_post env _ _ _ _) as [resp|e];
    [destruct (is_http_error (status_code resp)); [|destruct (json_body resp)]|];
    cbn [snd]; unfold h1; rewrite !remote_calls_app; cbn;
    by rewrite ?app_nil_r.
Qed.

(** X7: [upload] decodes the answer of the service although it does not
    use it.  When the labels endpoint answers with a success status and a
    body that is not JSON, the labels have been posted but [upload] ends
    with a decoding error, and the closing message is not printed. *)
Theorem upload_fails_after_posting env lib cfg url location text json_data
    process_json h resp :
  cfg !! "url" = Some url →
  cfg !! "tagging_location" = Some location →
  let data_json :=
    PathLib.str (PathLib.join (PathLib.of_str (expanduser lib location)) "data.json") in
  let h1 := h ++ [EPrint "Uploading VOTT json file..."] in
  env_open env h1 data_json "r" = None →
  env_read env (h1 ++ [EOpen data_json "r"]) data_json = Ok text →
  json_loads lib text = Some json_data →
  process_vott_json lib json_data = Ok process_json →
  let h2 := h1 ++ [EOpen data_json "r"; ERead data_json; EClose data_json] in
  let query := [("userName", opt_str (cfg !! "tagging_user")); ("upload", VStr "true")] in
  env_post env h2 (url +:+ "/api/labels") query process_json = Ok resp →
  ¬ (400 <= status_code resp < 600) →
  json_body resp = None →
  upload env lib cfg h
  = (Raise JSONDecodeError, h2 ++ [EPost (url +:+ "/api/labels") query process_json]).
Proof.
  intros Hurl Hloc data_json h1 Hopen Hread Hloads Hproc h2 query Hpost Hstatus Hbody.
  rewrite (upload_run env lib cfg url location text json_data process_json h
             Hurl Hloc Hopen Hread Hloads Hproc).
  cbv zeta. fold data_json h1 h2 query. rewrite Hpost.
  assert (Herr : is_http_error (status_code resp) = false).
  { unfold is_http_error.
    destruct (Z.leb_spec 400 (status_code resp)); [|reflexivity].
    destruct (Z.ltb_spec (status_code resp) 600); [lia | reflexivity]. }
  rewrite Herr, Hbody. reflexivity.
Qed.

Lemma upload_fails_after_posting_witness :
  ¬ (400 <= 200 < 600)
  ∧ upload (sample_env_with (fun _ _ _ _ => Ok (mkResponse 200 None "accepted"))
              (mkResponse 200 None "") (fun _ _ _ => None))
      Sample.lib Sample.cfg []
    = (Raise JSONDecodeError,
       [EPrint "Uploading VOTT json file...";
        EOpen "/home/ana/tags/data.json" "r";
        ERead "/home/ana/tags/data.json";
        EClose "/home/ana/tags/data.json";
        EPost "https://svc.example/api/labels"
          [("userName", VStr "ana"); ("upload", VStr "true")]
          (JObj [("labels", JArr [JStr "frame1"; JStr "frame2"])])]).
Proof.
  assert (Hstatus : ¬ (400 <= 200 < 600)) by lia.
  split; [exact Hstatus|].
  exact (upload_fails_after_posting
           (sample_env_with (fun _ _ _ _ => Ok (mkResponse 200 None "accepted"))
              (mkResponse 200 None "") (fun _ _ _ => None))
           Sample.lib Sample.cfg
           "https://svc.example" "/home/ana/tags" "frame1,frame2"
           (JArr [JStr "frame1"; JStr "frame2"])
           (JObj [("labels", JArr [JStr "frame1"; JStr "frame2"])])
           [] (mkResponse 200 None "accepted")
           eq_refl eq_refl eq_refl eq_refl eq_refl eq_refl eq_refl Hstatus eq_refl).
Defined.

(** ** download: configuration and the guard of write_vott_data *)

(** X8: the tagging location is looked up only after the images have been
    requested.  With a non-empty batch and no tagging location configured,
    [download] ends with a TypeError after the request (which checked the
    images out) and the count message, and does nothing to the local
    files. *)
Theorem download_without_tagging_location env lib cfg num_images h0 url k
    json_resp images_json items :
  images_endpoint_returns env lib cfg num_images h0 url k json_resp images_json items →
  items ≠ [] →
  cfg !! "tagging_location" = None →
  download env lib cfg num_images h0
  = (Raise TypeError,
     h0 ++ [EGet (url +:+ "/api/images")
                 [("imageCount", VInt k);
                  ("userName", opt_str (cfg !! "tagging_user"));
                  ("checkOut", VStr "true")];
            EPrint ("Received " +:+ Str.of_nat (List.length items) +:+ " files.")]).
Proof.
  intros Hret Hne Hloc.
  rewrite (download_received _ _ _ _ _ _ _ _ _ _ Hret).
  destruct items as [|item items]; [congruence|].
  cbn [List.length Nat.eqb].
  unfold download_batch. rewrite Hloc, bind_lift. reflexivity.
Qed.

Lemma download_without_tagging_location_witness :
  images_endpoint_returns (Sample.env 200 Sample.two_images) Sample.lib
    (delete "tagging_location" Sample.cfg)
    None [] "https://svc.example" 40
    (JObj [("images", JStr Sample.two_images);
           ("classification_list", JArr [JStr "cat"])])
    (JArr [JStr "https://cdn.example/img/1.jpg"; JStr "https://cdn.example/img/2.jpg"])
    [JStr "https://cdn.example/img/1.jpg"; JStr "https://cdn.example/img/2.jpg"]
  ∧ delete "tagging_location" Sample.cfg !! "tagging_location" = None
  ∧ download (Sample.env 200 Sample.two_images) Sample.lib
      (delete "tagging_location" Sample.cfg) None []
    = (Raise TypeError,
       [EGet "https://svc.example/api/images"
          [("imageCount", VInt 40); ("userName", VStr "ana"); ("checkOut", VStr "true")];
        EPrint "Received 2 files."]).
Proof.
  assert (Hret :
    images_endpoint_returns (Sample.env 200 Sample.two_images) Sample.lib
      (delete "tagging_location" Sample.cfg)
      None [] "https://svc.example" 40
      (JObj [("images", JStr Sample.two_images);
             ("classification_list", JArr [JStr "cat"])])
      (JArr [JStr "https://cdn.example/img/1.jpg"; JStr "https://cdn.example/img/2.jpg"])
      [JStr "https://cdn.example/img/1.jpg"; JStr "https://cdn.example/img/2.jpg"]).
  { split; [reflexivity|]. split; [reflexivity|].
    exists (mkResponse 200
              (Some (JObj [("images", JStr Sample.two_images);
                           ("classification_list", JArr [JStr "cat"])])) ""),
           Sample.two_images.
    repeat split; reflexivity. }
  split; [exact Hret|]. split; [reflexivity|].
  assert (Hne : [JStr "https://cdn.example/img/1.jpg";
                 JStr "https://cdn.example/img/2.jpg"] ≠ []) by discriminate.
  exact (download_without_tagging_location _ _ _ _ _ _ _ _ _ _ Hret Hne eq_refl).
Defined.

Lemma write_vott_data_skips env lib image_dir fields h :
  truthy (default JNull (dict_get "vott_json" fields)) = false →
  write_vott_data env lib image_dir (JObj fields) h = (Ok tt, h).
Proof.
  intros Hfalsy. unfold write_vott_data. rewrite bind_lift, Hfalsy. reflexivity.
Qed.

Lemma write_vott_data_writes env lib image_dir fields vott_json h :
  files_writable env →
  dict_get "vott_json" fields = Some vott_json →
  truthy vott_json = true →
  write_vott_data env lib image_dir (JObj fields) h
  = (Ok tt, h ++ vott_events lib image_dir vott_json).
Proof.
  intros [Hopen Hwrite] Hget Htruthy.
  unfold write_vott_data. rewrite bind_lift, Hget.
  cbn [default from_option]. unfold id. rewrite Htruthy. cbn [negb].
  rewrite with_open_run, Hopen.
  rewrite (write_loop_run env _ (fun c => String c EmptyString) _ _ Hwrite).
  unfold vott_events. rewrite <- !app_assoc. reflexivity.
Qed.

(** X9: the guard of [write_vott_data].  When the document given to
    [download_images] has no "vott_json" entry, or an empty one (None, an
    empty dict or list, an empty string, 0, False), no data.json is
    written; the images are still fetched, one file per URL, and their
    paths returned. *)
Theorem download_images_without_document env lib cfg image_dir fields urls h :
  files_writable env →
  images_served env urls →
  truthy (default JNull (dict_get "vott_json" fields)) = false →
  dict_get "imageUrls" fields = Some (JArr (map JStr urls)) →
  ∃ blocks,
    download_images env lib cfg image_dir (JObj fields) h
    = (Ok (map (fun u => PathLib.join image_dir (url_name lib u)) urls),
       h ++ EPrint ("Downloading files to " +:+ PathLib.str image_dir) :: concat blocks)
    ∧ Forall2 (fun u block =>
                 ∃ h' r, env_get env h' u [] = Ok r
                         ∧ block = image_events lib image_dir u r)
              urls blocks
    ∧ opened (concat blocks)
      = map (fun u => (PathLib.str (PathLib.join image_dir (url_name lib u)), "wb")) urls.
Proof.
  intros Hfs Hserved Hfalsy Hurls.
  unfold download_images. rewrite bind_print.
  unfold bind at 1. rewrite (write_vott_data_skips env lib image_dir fields _ Hfalsy).
  rewrite bind_lift. unfold subscript. rewrite Hurls.
  rewrite bind_lift. cbn [py_iter].
  destruct (download_loop_run env lib image_dir urls
              (h ++ [EPrint ("Downloading files to " +:+ PathLib.str image_dir)])
              Hfs Hserved) as (blocks & Hrun & Hblocks).
  exists blocks. split; [|split; [exact Hblocks|]].
  - rewrite Hrun. rewrite <- app_assoc. reflexivity.
  - apply (opened_image_blocks env lib image_dir urls blocks Hblocks).
Qed.

Lemma download_images_without_document_witness :
  files_writable (Sample.env 200 "")
  ∧ images_served (Sample.env 200 "") ["https://cdn.example/img/1.jpg"]
  ∧ truthy (default JNull
              (dict_get "vott_json"
                 [("vott_json", JObj []);
                  ("imageUrls", JArr [JStr "https://cdn.example/img/1.jpg"])])) = false
  ∧ ∃ blocks,
      download_images (Sample.env 200 "") Sample.lib Sample.cfg
        (mkPath "/" ["home"; "ana"; "tags"; "data"])
        (JObj [("vott_json", JObj []);
               ("imageUrls", JArr [JStr "https://cdn.example/img/1.jpg"])]) []
      = (Ok [mkPath "/" ["home"; "ana"; "tags"; "data"; "1.jpg"]],
         [] ++ EPrint "Downloading files to /home/ana/tags/data" :: concat blocks)
      ∧ opened (concat blocks) = [("/home/ana/tags/data/1.jpg", "wb")].
Proof.
  pose proof (sample_files_writable 200 "") as Hfs.
  pose proof (sample_images_served 200 "" ["https://cdn.example/img/1.jpg"]) as Hserved.
  split; [exact Hfs|]. split; [exact Hserved|]. split; [reflexivity|].
  destruct (download_images_without_document (Sample.env 200 "") Sample.lib Sample.cfg
              (mkPath "/" ["home"; "ana"; "tags"; "data"])
              [("vott_json", JObj []);
               ("imageUrls", JArr [JStr "https://cdn.example/img/1.jpg"])]
              ["https://cdn.example/img/1.jpg"] [] Hfs Hserved eq_refl eq_refl)
    as (blocks & Hrun & _ & Hopened).
  exists blocks. split; [exact Hrun | exact Hopened].
Defined.

(** X10: when the document given to [download_images] has no "imageUrls"
    entry, data.json has already been written when the KeyError is
    raised; no image is requested. *)
Theorem download_images_without_urls env lib cfg image_dir fields vott_json h :
  files_writable env →
  dict_get "vott_json" fields = Some vott_json →
  truthy vott_json = true →
  dict_get "imageUrls" fields = None →
  download_images env lib cfg image_dir (JObj fields) h
  = (Raise (KeyError "imageUrls"),
     h ++ EPrint ("Downloading files to " +:+ PathLib.str image_dir)
       :: vott_events lib image_dir vott_json).
Proof.
  intros Hfs Hdoc Htruthy Hurls.
  unfold download_images. rewrite bind_print.
  unfold bind at 1.
  rewrite (write_vott_data_writes env lib image_dir fields vott_json _ Hfs Hdoc Htruthy).
  rewrite bind_lift. unfold subscript. rewrite Hurls.
  rewrite <- app_assoc. reflexivity.
Qed.

Lemma download_images_without_urls_witness :
  files_writable (Sample.env 200 "")
  ∧ dict_get "vott_json" [("vott_json", JStr "ab")] = Some (JStr "ab")
  ∧ truthy (JStr "ab") = true
  ∧ dict_get "imageUrls" [("vott_json", JStr "ab")] = None
  ∧ download_images (Sample.env 200 "") Sample.lib Sample.cfg
      (mkPath "/" ["tags"; "data"]) (JObj [("vott_json", JStr "ab")]) []
    = (Raise (KeyError "imageUrls"),
       [EPrint "Downloading files to /tags/data";
        EOpen "/tags/data/../data.json" "w";
        EWrite "/tags/data/../data.json" "a";
        EWrite "/tags/data/../data.json" "b";
        EClose "/tags/data/../data.json"]).
Proof.
  pose proof (sample_files_writable 200 "") as Hfs.
  split; [exact Hfs|]. do 3 (split; [reflexivity|]).
  exact (download_images_without_urls (Sample.env 200 "") Sample.lib Sample.cfg
           (mkPath "/" ["tags"; "data"]) [("vott_json", JStr "ab")] (JStr "ab") []
           Hfs eq_refl eq_refl eq_refl).
Defined.

(** ** download_images: what ends up in an image file *)

Lemma take_length (n : nat) (s : string) :
  String.length (take n s) = Nat.min n (String.length s).
Proof.
  revert s. induction n as [|n IH]; intros s; [reflexivity|].
  destruct s as [|c s]; [reflexivity|]. simpl. by rewrite IH.
Qed.

Lemma iter_slices_sizes (s : string) (n : nat) :
  (0 < n)%nat →
  Forall (fun chunk => (0 < String.length chunk <= n)%nat) (iter_slices s n).
Proof.
  intros Hn. unfold iter_slices. generalize (String.length s) as fuel.
  intros fuel. revert s. induction fuel as [|fuel IH]; intros s; [constructor|].
  destruct s as [|c s]; [constructor|].
  cbn [iter_slices_fuel]. constructor; [|apply IH].
  rewrite take_length. simpl. lia.
Qed.

Lemma written_writes (p : string) (chunks : list string) (t : log) :
  written p (map (EWrite p) chunks ++ t)
  = fold_right String.append EmptyString chunks +:+ written p t.
Proof.
  induction chunks as [|c chunks IH]; [reflexivity|].
  cbn [map app written fold_right]. rewrite String.eqb_refl, IH.
  induction c as [|a c IHc]; [reflexivity|].
  rewrite !app_cons. by rewrite IHc.
Qed.

(** X11: [download_images] does not look at the status of an image
    response.  Whatever the status, also 4xx and 5xx, the body
    is written to the local file, unchanged and in order, in slices of at
    most 128 characters, and no exception is raised. *)
Theorem image_body_written_whatever_status env lib image_dir u r h :
  files_writable env →
  env_get env h u [] = Ok r →
  let file_path := PathLib.join image_dir (url_name lib u) in
  let chunks := iter_slices (content r) 128 in
  download_image env lib image_dir (JStr u) h
  = (Ok file_path,
     h ++ [EGet u []; EOpen (PathLib.str file_path) "wb"]
       ++ map (EWrite (PathLib.str file_path)) chunks
       ++ [EClose (PathLib.str file_path)])
  ∧ written (PathLib.str file_path)
      ([EGet u []; EOpen (PathLib.str file_path) "wb"]
       ++ map (EWrite (PathLib.str file_path)) chunks
       ++ [EClose (PathLib.str file_path)])
    = content r
  ∧ Forall (fun chunk => (0 < String.length chunk <= 128)%nat) chunks.
Proof.
  intros Hfs Hget file_path chunks. split; [|split].
  - rewrite (download_image_run env lib image_dir u r h Hfs Hget). reflexivity.
  - cbn [app written]. rewrite written_writes. cbn [written].
    unfold chunks. rewrite iter_slices_concat by lia.
    generalize (content r). intros s. induction s as [|c s IH]; [reflexivity|].
    rewrite app_cons. by rewrite IH.
  - apply iter_slices_sizes. lia.
Qed.

Lemma image_body_written_whatever_status_witness :
  files_writable (sample_env_with (fun _ _ _ _ => Raise (LibraryError "unused"))
                    (mkResponse 404 None "Not Found") (fun _ _ _ => None))
  ∧ download_image
      (sample_env_with (fun _ _ _ _ => Raise (LibraryError "unused"))
         (mkResponse 404 None "Not Found") (fun _ _ _ => None))
      Sample.lib (mkPath "/" ["tags"; "data"])
      (JStr "https://cdn.example/img/gone.png") []
    = (Ok (mkPath "/" ["tags"; "data"; "gone.png"]),
       [EGet "https://cdn.example/img/gone.png" [];
        EOpen "/tags/data/gone.png" "wb";
        EWrite "/tags/data/gone.png" "Not Found";
        EClose "/tags/data/gone.png"]).
Proof.
  assert (Hfs : files_writable
                  (sample_env_with (fun _ _ _ _ => Raise (LibraryError "unused"))
                     (mkResponse 404 None "Not Found") (fun _ _ _ => None)))
    by (split; intros; reflexivity).
  split; [exact Hfs|].
  exact (proj1 (image_body_written_whatever_status _ Sample.lib
                  (mkPath "/" ["tags"; "data"])
                  "https://cdn.example/img/gone.png"
                  (mkResponse 404 None "Not Found") [] Hfs eq_refl)).
Defined.

Lemma iter_slices_first (s : string) (n : nat) :
  s ≠ EmptyString → ∃ more, iter_slices s n = take n s :: more.
Proof.
  intros Hne. destruct s as [|c s]; [congruence|].
  unfold iter_slices. cbn [String.length iter_slices_fuel]. eauto.
Qed.

(** X12: a write that raises while an image is being saved ends
    [download_images]: the file is closed, the exception is passed on, and
    the remaining URLs are not requested. *)
Theorem download_images_stops_at_failed_write env lib cfg image_dir fields
    u rest r e h h1 :
  write_vott_data env lib image_dir (JObj fields)
    (h ++ [EPrint ("Downloading files to " +:+ PathLib.str image_dir)])
  = (Ok tt, h1) →
  dict_get "imageUrls" fields = Some (JArr (JStr u :: rest)) →
  env_get env h1 u [] = Ok r →
  let p := PathLib.str (PathLib.join image_dir (url_name lib u)) in
  env_open env (h1 ++ [EGet u []]) p "wb" = None →
  content r ≠ "" →
  env_write env (h1 ++ [EGet u []; EOpen p "wb"]) p (take 128 (content r)) = Some e →
  download_images env lib cfg image_dir (JObj fields) h
  = (Raise e,
     h1 ++ [EGet u []; EOpen p "wb"; EWrite p (take 128 (content r)); EClose p]).
Proof.
  intros Hdoc Hurls Hget p Hopen Hbody Hwrite.
  unfold download_images. rewrite bind_print.
  unfold bind at 1. rewrite Hdoc.
  rewrite bind_lift. unfold subscript. rewrite Hurls.
  rewrite bind_lift. cbn [py_iter map_M].
  unfold bind at 1. unfold download_image at 1. unfold as_url. rewrite bind_ret.
  unfold requests_get. rewrite bind_call, Hget.
  unfold bind at 1. fold p. rewrite with_open_run, Hopen.
  destruct (iter_slices_first (content r) 128 Hbody) as [more ->].
  cbn [for_each]. unfold file_write at 1. rewrite bind_call.
  rewrite <- app_assoc. cbn [app]. rewrite Hwrite. cbn [of_option].
  rewrite <- !app_assoc. reflexivity.
Qed.

Lemma download_images_stops_at_failed_write_witness :
  write_vott_data
    (sample_env_with (fun _ _ _ _ => Raise (LibraryError "unused"))
       (mkResponse 200 None "image bytes") (fun _ _ _ => Some (OSError "disk full")))
    Sample.lib (mkPath "/" ["tags"; "data"])
    (JObj [("imageUrls", JArr [JStr "https://cdn.example/1.jpg";
                               JStr "https://cdn.example/2.jpg"])])
    ([] ++ [EPrint ("Downloading files to "
                    +:+ PathLib.str (mkPath "/" ["tags"; "data"]))])
  = (Ok tt, [EPrint "Downloading files to /tags/data"])
  ∧ "image bytes" ≠ ""
  ∧ download_images
      (sample_env_with (fun _ _ _ _ => Raise (LibraryError "unused"))
         (mkResponse 200 None "image bytes") (fun _ _ _ => Some (OSError "disk full")))
      Sample.lib Sample.cfg (mkPath "/" ["tags"; "data"])
      (JObj [("imageUrls", JArr [JStr "https://cdn.example/1.jpg";
                                 JStr "https://cdn.example/2.jpg"])]) []
    = (Raise (OSError "disk full"),
       [EPrint "Downloading files to /tags/data";
        EGet "https://cdn.example/1.jpg" [];
        EOpen "/tags/data/1.jpg" "wb";
        EWrite "/tags/data/1.jpg" "image bytes";
        EClose "/tags/data/1.jpg"]).
Proof.
  assert (Hbody : "image bytes" ≠ "") by discriminate.
  split; [reflexivity|]. split; [exact Hbody|].
  exact (download_images_stops_at_failed_write
           (sample_env_with (fun _ _ _ _ => Raise (LibraryError "unused"))
              (mkResponse 200 None "image bytes")
              (fun _ _ _ => Some (OSError "disk full")))
           Sample.lib Sample.cfg (mkPath "/" ["tags"; "data"])
           [("imageUrls", JArr [JStr "https://cdn.example/1.jpg";
                                JStr "https://cdn.example/2.jpg"])]
           "https://cdn.example/1.jpg" [JStr "https://cdn.example/2.jpg"]
           (mkResponse 200 None "image bytes") (OSError "disk full")
           [] [EPrint "Downloading files to /tags/data"]
           eq_refl eq_refl eq_refl eq_refl Hbody eq_refl).
Defined.

(** ** supported_file_type on names *)

Lemma lower_char_dot (c : ascii) :
  Ascii.eqb (Str.lower_char c) "." = Ascii.eqb c ".".
Proof. destruct c as [[] [] [] [] [] [] [] []]; reflexivity. Qed.

Lemma lower_char_slash (c : ascii) :
  Ascii.eqb (Str.lower_char c) "/" = Ascii.eqb c "/".
Proof. destruct c as [[] [] [] [] [] [] [] []]; reflexivity. Qed.

Lemma has_dot_lower (s : string) : has_dot (Str.lower s) = has_dot s.
Proof. induction s as [|c s IH]; [reflexivity|]. simpl. by rewrite lower_char_dot, IH. Qed.

Lemma has_slash_lower (s : string) : has_slash (Str.lower s) = has_slash s.
Proof. induction s as [|c s IH]; [reflexivity|]. simpl. by rewrite lower_char_slash, IH. Qed.

Lemma has_slash_app (a b : string) :
  has_slash (a +:+ b) = (has_slash a || has_slash b)%bool.
Proof.
  induction a as [|c a IH]; [reflexivity|].
  rewrite app_cons. simpl. rewrite IH. by rewrite orb_assoc.
Qed.

Lemma lower_app (a b : string) : Str.lower (a +:+ b) = Str.lower a +:+ Str.lower b.
Proof. induction a as [|c a IH]; [reflexivity|]. rewrite app_cons. simpl. by rewrite IH. Qed.

Lemma rfind_no_dot (s : string) : has_dot s = false → Str.rfind "." s = -1.
Proof.
  induction s as [|c s IH]; [reflexivity|].
  simpl. intros H. apply orb_false_elim in H as [Hc Hs].
  rewrite (IH Hs). simpl. by rewrite Hc.
Qed.

Lemma rfind_bounds (c : ascii) (s : string) : -1 <= Str.rfind c s < Str.len s.
Proof.
  unfold Str.len. induction s as [|a s IH]; [simpl; lia|].
  cbn [Str.rfind String.length]. destruct (0 <=? Str.rfind c s) eqn:E.
  - apply Z.leb_le in E. lia.
  - destruct (Ascii.eqb a c); lia.
Qed.

Lemma rfind_app_found (c : ascii) (a b : string) :
  0 <= Str.rfind c b → Str.rfind c (a +:+ b) = Str.len a + Str.rfind c b.
Proof.
  intros Hb. unfold Str.len.
  induction a as [|x a IH]; [rewrite app_empty; simpl; lia|].
  rewrite app_cons. cbn [Str.rfind String.length]. rewrite IH.
  assert (E : (0 <=? Z.of_nat (String.length a) + Str.rfind c b) = true)
    by (apply Z.leb_le; lia).
  rewrite E. lia.
Qed.

Lemma drop_app_exact (a b : string) : Str.drop (String.length a) (a +:+ b) = b.
Proof.
  assert (H := drop_app_string a b 0). rewrite Nat.add_0_r in H. exact H.
Qed.

(** X13: a plain file name with one of the four extensions, in any
    letter case, is accepted: the stem is not empty, has no '/' and does
    not start with '.' (it may contain dots), and the extension lowers to
    png, jpg, jpeg or gif. *)
Theorem supported_file_type_accepts (stem ext : string) :
  stem ≠ "" →
  Str.startswith "." stem = false →
  has_slash stem = false →
  Str.lower ext ∈ ["png"; "jpg"; "jpeg"; "gif"] →
  supported_file_type (stem +:+ "." +:+ ext) = true.
Proof.
  intros Hstem Hhidden Hslash Hext.
  assert (Hfacts : has_dot (Str.lower ext) = false
                   ∧ has_slash (Str.lower ext) = false
                   ∧ Str.lower ext ≠ ""
                   ∧ "." +:+ Str.lower ext ∈ supported_suffixes).
  { unfold supported_suffixes.
    repeat (apply elem_of_cons in Hext as [->|Hext];
            [repeat split; try reflexivity; try discriminate;
             repeat first [apply list_elem_of_here | apply list_elem_of_further]|]).
    by apply not_elem_of_nil in Hext. }
  destruct Hfacts as (Hdot & Hslash' & Hne & Hin).
  rewrite has_dot_lower in Hdot. rewrite has_slash_lower in Hslash'.
  assert (Hext_ne : ext ≠ "") by (intros ->; by apply Hne).
  destruct stem as [|c stem]; [congruence|].
  set (name := String c stem +:+ "." +:+ ext).
  assert (Hplain : plain_component name = true).
  { unfold plain_component, name. rewrite !has_slash_app, Hslash, Hslash'.
    cbn [has_slash Ascii.eqb Bool.eqb orb negb andb].
    unfold PathLib.is_component. rewrite app_cons.
    assert (Hrest : ∃ d s', stem +:+ "." +:+ ext = String d s').
    { destruct stem; [rewrite app_empty, app_cons | rewrite app_cons]; eauto. }
    destruct Hrest as (d & s' & ->). simpl.
    destruct (Ascii.eqb c "."); reflexivity. }
  assert (Hstart : Str.startswith "." name = false).
  { unfold name. rewrite app_cons. unfold Str.startswith in *.
    cbn [String.prefix] in *.
    destruct (ascii_dec "." c); [destruct stem; discriminate | reflexivity]. }
  assert (Hsuffix : PathLib.suffix (PathLib.of_str name) = "." +:+ ext).
  { rewrite (of_str_plain name Hplain).
    unfold PathLib.suffix, PathLib.name. cbn [p_parts List.last].
    assert (Hrfind : Str.rfind "." name = Str.len (String c stem)).
    { unfold name. rewrite rfind_app_found.
      - rewrite app_cons, app_empty. cbn [Str.rfind]. rewrite (rfind_no_dot ext Hdot).
        cbn. lia.
      - rewrite app_cons, app_empty. cbn [Str.rfind]. rewrite (rfind_no_dot ext Hdot).
        cbn. lia. }
    rewrite Hrfind.
    assert (Hlen : Str.len name = Str.len (String c stem) + 1 + Str.len ext).
    { unfold name, Str.len. rewrite !length_app_string. cbn [String.length]. lia. }
    assert (Hpos : 0 < Str.len ext).
    { unfold Str.len. destruct ext; [congruence | cbn; lia]. }
    assert (Hcond : ((0 <? Str.len (String c stem))
                     && (Str.len (String c stem) <? Str.len name - 1))%bool = true).
    { apply andb_true_intro. split; apply Z.ltb_lt.
      - unfold Str.len. cbn. lia.
      - lia. }
    rewrite Hcond. unfold Str.len.
    rewrite (Nat2Z.id (String.length (String c stem))).
    unfold name. apply drop_app_exact. }
  unfold supported_file_type. rewrite Hstart, Hsuffix, lower_app.
  change (Str.lower ".") with ".".
  rewrite bool_decide_true by exact Hin. reflexivity.
Qed.

Lemma supported_file_type_accepts_witness :
  "holiday.2019" ≠ ""
  ∧ Str.startswith "." "holiday.2019" = false
  ∧ has_slash "holiday.2019" = false
  ∧ Str.lower "JpEg" ∈ ["png"; "jpg"; "jpeg"; "gif"]
  ∧ supported_file_type ("holiday.2019" +:+ "." +:+ "JpEg") = true.
Proof.
  assert (Hne : "holiday.2019" ≠ "") by discriminate.
  assert (Hext : Str.lower "JpEg" ∈ ["png"; "jpg"; "jpeg"; "gif"]).
  { vm_compute. do 2 apply list_elem_of_further. apply list_elem_of_here. }
  split; [exact Hne|]. do 2 (split; [reflexivity|]). split; [exact Hext|].
  exact (supported_file_type_accepts "holiday.2019" "JpEg" Hne eq_refl eq_refl Hext).
Defined.

Lemma has_dot_lstrip (c : ascii) (s : string) :
  has_dot s = false → has_dot (Str.lstrip c s) = false.
Proof.
  induction s as [|a s IH]; [reflexivity|].
  intros H. cbn [Str.lstrip]. destruct (Ascii.eqb a c); [|exact H].
  apply IH. simpl in H. by apply orb_false_elim in H as [_ H].
Qed.

Lemma split_no_dot (sep : ascii) (s : string) :
  has_dot s = false → Forall (fun w => has_dot w = false) (Str.split sep s).
Proof.
  induction s as [|a s IH]; intros H.
  - repeat constructor.
  - simpl in H. apply orb_false_elim in H as [Ha Hs]. specialize (IH Hs).
    cbn [Str.split]. destruct (Ascii.eqb a sep).
    + constructor; [reflexivity | exact IH].
    + destruct (Str.split sep s) as [|w ws].
      * repeat constructor. simpl. by rewrite Ha.
      * inversion IH as [|? ? Hw Hws]; subst. constructor; [|exact Hws].
        simpl. by rewrite Ha, Hw.
Qed.

Lemma name_no_dot (s : string) :
  has_dot s = false → has_dot (PathLib.name (PathLib.of_str s)) = false.
Proof.
  intros H. unfold PathLib.of_str.
  assert (Hrel : has_dot (snd (PathLib.splitroot s)) = false).
  { unfold PathLib.splitroot. destruct s as [|c s]; [reflexivity|].
    destruct c as [[] [] [] [] [] [] [] []]; try exact H.
    destruct (_ =? 2)%nat; cbn [snd]; by apply has_dot_lstrip. }
  destruct (PathLib.splitroot s) as [root rel]. cbn [snd] in Hrel.
  unfold PathLib.name. cbn [p_parts].
  assert (Hall := split_no_dot "/" rel Hrel).
  induction Hall as [|w ws Hw _ IH]; [reflexivity|].
  cbn [List.filter]. destruct (PathLib.is_component w); [|exact IH].
  destruct (List.filter PathLib.is_component ws) eqn:E; [exact Hw | exact IH].
Qed.

(** X14: a name without any '.' is never supported, whatever else it
    contains: files without an extension are not uploaded. *)
Theorem supported_file_type_needs_dot (file_name : string) :
  has_dot file_name = false → supported_file_type file_name = false.
Proof.
  intros H. unfold supported_file_type.
  destruct (Str.startswith "." file_name); [reflexivity|].
  unfold PathLib.suffix.
  rewrite (rfind_no_dot _ (name_no_dot file_name H)). reflexivity.
Qed.

Lemma supported_file_type_needs_dot_witness :
  has_dot "photos/IMG_0001" = false
  ∧ supported_file_type "photos/IMG_0001" = false.
Proof.
  split; [reflexivity|].
  exact (supported_file_type_needs_dot "photos/IMG_0001" eq_refl).
Defined.

(** ** strip_path_prefix on paths of the walk *)

Lemma replace_occurrence (old rest : string) :
  old ≠ EmptyString →
  Str.replace old EmptyString (old +:+ rest) = Str.replace old EmptyString rest.
Proof.
  intros Hne. destruct old as [|c old]; [congruence|].
  unfold Str.replace.
  rewrite (replace_go_occurrence (String c old) EmptyString rest Hne).
  apply app_empty.
Qed.

(** X15: [strip_path_prefix] cannot tell a path from the same path with
    the folder name put in front of it once more: both get the same blob
    name. *)
Theorem strip_path_prefix_repeated_folder (folder_name file_path : string) :
  folder_name ≠ "" →
  strip_path_prefix folder_name (folder_name +:+ file_path)
  = strip_path_prefix folder_name file_path.
Proof.
  intros Hne. unfold strip_path_prefix.
  by rewrite (replace_occurrence folder_name file_path Hne).
Qed.

Lemma strip_path_prefix_repeated_folder_witness :
  "img/" ≠ ""
  ∧ strip_path_prefix "img/" ("img/" +:+ "img/cat.png") = mkPath "" ["cat.png"]
  ∧ strip_path_prefix "img/" "img/cat.png" = mkPath "" ["cat.png"].
Proof.
  assert (Hne : "img/" ≠ "") by discriminate.
  split; [exact Hne|]. split; [|reflexivity].
  rewrite (strip_path_prefix_repeated_folder "img/" "img/cat.png" Hne). reflexivity.
Defined.

(** X16: when the folder name is empty or does not occur in the file
    path, [strip_path_prefix] only drops one leading '/': an absolute file
    path becomes a relative blob name. *)
Theorem strip_path_prefix_no_occurrence (folder_name file_path : string) :
  folder_name = "" ∨ (∀ i, ¬ occurs_at folder_name file_path i) →
  strip_path_prefix folder_name file_path
  = PathLib.of_str (without_leading_slash file_path).
Proof.
  intros Hcase.
  assert (Hreplace : Str.replace folder_name "" file_path = file_path).
  { destruct Hcase as [->|Hnone]; [apply replace_empty_old|].
    destruct folder_name as [|c folder]; [apply replace_empty_old|].
    unfold Str.replace. apply replace_go_no_occurrence. intros j.
    specialize (Hnone j). unfold occurs_at in Hnone.
    by destruct (String.prefix _ _). }
  unfold strip_path_prefix, without_leading_slash. rewrite Hreplace.
  destruct (Str.startswith "/" file_path); reflexivity.
Qed.

Lemma strip_path_prefix_no_occurrence_witness :
  ("zz" = "" ∨ ∀ i, ¬ occurs_at "zz" "/srv/a.png" i)
  ∧ strip_path_prefix "zz" "/srv/a.png" = mkPath "" ["srv"; "a.png"].
Proof.
  assert (Hcase : "zz" = "" ∨ ∀ i, ¬ occurs_at "zz" "/srv/a.png" i).
  { right. intros i H. unfold occurs_at in H.
    do 10 (destruct i as [|i]; [vm_compute in H; discriminate|]).
    vm_compute in H. destruct i; discriminate. }
  split; [exact Hcase|].
  rewrite (strip_path_prefix_no_occurrence "zz" "/srv/a.png" Hcase). reflexivity.
Defined.

(** X17: for a file that the walk finds directly in the onboard folder, the
    blob name is the bare file name, provided the folder name occurs in the
    joined path only at its start. *)
Theorem strip_path_prefix_of_walked_file (folder_name file_name : string) :
  folder_name ≠ "" →
  Str.startswith "/" file_name = false →
  (∀ i, occurs_at folder_name (os_path_join folder_name file_name) i → i = 0%nat) →
  strip_path_prefix folder_name (os_path_join folder_name file_name)
  = PathLib.of_str file_name.
Proof.
  intros Hne Hname Honly.
  assert (Hjoin : ∃ rest, os_path_join folder_name file_name = folder_name +:+ rest
                          ∧ without_leading_slash rest = file_name).
  { unfold os_path_join. rewrite Hname.
    destruct (String.eqb folder_name "" || Str.endswith_char "/" folder_name)%bool.
    - exists file_name. split; [reflexivity|].
      unfold without_leading_slash. by rewrite Hname.
    - exists ("/" +:+ file_name). split; [reflexivity|].
      rewrite app_cons, app_empty.
      unfold without_leading_slash, Str.startswith. cbn [String.prefix].
      destruct (ascii_dec "/" "/"); [|congruence].
      destruct file_name; reflexivity. }
  destruct Hjoin as (rest & Hjoin & Hrest).
  rewrite Hjoin in *.
  unfold strip_path_prefix.
  rewrite (replace_leading_only folder_name rest Hne Honly).
  rewrite <- Hrest. unfold without_leading_slash.
  destruct (Str.startswith "/" rest); reflexivity.
Qed.

Lemma strip_path_prefix_of_walked_file_witness :
  "/p" ≠ ""
  ∧ Str.startswith "/" "a.png" = false
  ∧ (∀ i, occurs_at "/p" (os_path_join "/p" "a.png") i → i = 0%nat)
  ∧ strip_path_prefix "/p" (os_path_join "/p" "a.png") = mkPath "" ["a.png"].
Proof.
  assert (Hne : "/p" ≠ "") by discriminate.
  assert (Honly : ∀ i, occurs_at "/p" (os_path_join "/p" "a.png") i → i = 0%nat).
  { intros i H. unfold occurs_at in H.
    destruct i as [|i]; [reflexivity|]. exfalso.
    do 8 (destruct i as [|i]; [vm_compute in H; discriminate|]).
    vm_compute in H. destruct i; discriminate. }
  split; [exact Hne|]. split; [reflexivity|]. split; [exact Honly|].
  rewrite (strip_path_prefix_of_walked_file "/p" "a.png" Hne eq_refl Honly).
  reflexivity.
Defined.
